(** * The MAF dot-plot builder of [report_utils.py]

    A shallow embedding of [dotplot_assembly]
    (bin/workflow_glue/report_utils/report_utils.py, lines 165-226) and the
    properties of its line parser and of its coordinate transform.

    Modelling conventions.
    - Text is a [string] whose characters are read as code points below 256.
    - The open file [maf] is the list of the lines still to be read, each
      with its terminating line feed; [readline] at the end of the file
      returns the empty string, as Python's does.
    - Exceptions are values of type [exn]; a computation that may raise has
      type [result A].  The spec's FormatError is Python's [IOError], its
      UninitializedValueError is [UnboundLocalError].
    - The numeric columns of the data frame are 64-bit: the conversion of a
      column to [int] raises [OverflowError] on an integer outside the
      signed 64-bit range, and the sums and differences of columns wrap
      around in two's complement ([wrap64]).  The column [rend] of the
      forward pass is created by an assignment under a mask, so it is a
      column of 64-bit floats: a cell outside the mask holds NaN, modelled
      by [None], and an integer stored in it is rounded to the nearest float
      ([float64], ties to even), modelled by the integer that float denotes.
      [read_length] is a Python integer, of any size.
    - Of the table library the model keeps what the function relies on: a
      frame made of records of unequal length fills the short ones with
      [None] and needs the longest to have one text per column name; the
      conversion of a column to [int] applies Python's [int] to each cell
      and stores the result in 64 bits;
      a row selection, a column assignment and an assignment under a mask
      work row by row, on rows that keep their order. *)

From Stdlib Require Import ZArith List String Ascii Bool Lia.
Import ListNotations.

Local Open Scope string_scope.
Local Open Scope Z_scope.

(** ** Exceptions *)

Inductive exn : Type :=
| IOError (msg : string)
| IndexError
| ValueError
| TypeError
| OverflowError
| UnboundLocalError.

Inductive result (A : Type) : Type :=
| Ok (a : A)
| Raise (e : exn).

Arguments Ok {A} a.
Arguments Raise {A} e.

Definition bind {A B : Type} (m : result A) (k : A -> result B) : result B :=
  match m with
  | Ok a => k a
  | Raise e => Raise e
  end.

Notation "x <- m ;; k" := (bind m (fun x => k))
  (at level 61, m at next level, right associativity).

Fixpoint mapM {A B : Type} (f : A -> result B) (l : list A) : result (list B) :=
  match l with
  | [] => Ok []
  | x :: l' => y <- f x ;; ys <- mapM f l' ;; Ok (y :: ys)
  end.

(** ** Python's string primitives *)

Module Py.

Definition code (c : ascii) : N := N_of_ascii c.

(** [str.isspace] on one character: the separators of [str.split()]. *)
Definition isspace (c : ascii) : bool :=
  let n := code c in
  ((9 <=? n) && (n <=? 13) || (28 <=? n) && (n <=? 32)
   || (n =? 133) || (n =? 160))%N.

(** The white space [int] strips from a text: as [isspace], without the
    four control characters 28 to 31. *)
Definition int_space (c : ascii) : bool :=
  let n := code c in
  ((9 <=? n) && (n <=? 13) || (n =? 32) || (n =? 133) || (n =? 160))%N.

(** [s.startswith(prefix)] *)
Definition startswith (s prefix : string) : bool := String.prefix prefix s.

(** [sub in s] *)
Fixpoint contains (sub s : string) : bool :=
  startswith s sub ||
  match s with
  | EmptyString => false
  | String _ s' => contains sub s'
  end.

Fixpoint rev_string (acc s : string) : string :=
  match s with
  | EmptyString => acc
  | String c s' => rev_string (String c acc) s'
  end.

(** [s.split()]: the maximal runs of characters that are not white space.
    [cur] holds the token being read, last character first. *)
Definition flush (cur : string) (toks : list string) : list string :=
  match cur with
  | EmptyString => toks
  | _ => rev_string "" cur :: toks
  end.

Fixpoint split_ws (cur s : string) : list string :=
  match s with
  | EmptyString => flush cur []
  | String c s' =>
      if isspace c then flush cur (split_ws "" s')
      else split_ws (String c cur) s'
  end.

Definition split (s : string) : list string := split_ws "" s.

(** [s.split(sep)] for a separator that is not empty: the pieces between
    the occurrences of [sep], found from the left and not overlapping.
    [skip] counts the characters of a found separator still to pass. *)
Fixpoint split_at (sep : string) (skip : nat) (cur s : string) : list string :=
  match s with
  | EmptyString => [rev_string "" cur]
  | String c s' =>
      match skip with
      | S k => split_at sep k cur s'
      | O =>
          if startswith s sep
          then rev_string "" cur :: split_at sep (String.length sep - 1) "" s'
          else split_at sep O (String c cur) s'
      end
  end.

Definition split_sep (s sep : string) : list string := split_at sep O "" s.

(** [l[i:j]] for indices within [0 .. ] *)
Definition slice {A : Type} (i j : nat) (l : list A) : list A :=
  firstn (j - i) (skipn i l).

(** [int(s)] in base ten: white space around, an optional sign, then
    digits, where single underscores may stand between digits.  The bound
    that recent versions put on the number of digits is not modelled. *)
Definition digit (c : ascii) : option Z :=
  let n := code c in
  if ((48 <=? n) && (n <=? 57))%N then Some (Z.of_N n - 48) else None.

Definition is_underscore (c : ascii) : bool := (code c =? 95)%N.

(** [digits acc after_digit s]: reads the digits of [s] into [acc];
    [after_digit] says that the previous character was a digit, so that an
    underscore may follow. *)
Fixpoint digits (acc : Z) (after_digit : bool) (s : string) : option Z :=
  match s with
  | EmptyString => if after_digit then Some acc else None
  | String c s' =>
      match digit c with
      | Some d => digits (10 * acc + d) true s'
      | None =>
          if is_underscore c && after_digit then
            match s' with
            | EmptyString => None
            | String c' _ =>
                match digit c' with
                | Some _ => digits acc false s'
                | None => None
                end
            end
          else None
      end
  end.

Fixpoint lstrip (s : string) : string :=
  match s with
  | String c s' => if int_space c then lstrip s' else s
  | EmptyString => s
  end.

Definition strip (s : string) : string :=
  rev_string "" (lstrip (rev_string "" (lstrip s))).

Definition signed (s : string) : option Z :=
  match s with
  | String "-" s' => option_map Z.opp (digits 0 false s')
  | String "+" s' => digits 0 false s'
  | _ => digits 0 false s
  end.

Definition int (s : string) : result Z :=
  match signed (strip s) with
  | Some n => Ok n
  | None => Raise ValueError
  end.

End Py.

(** ** The text file *)

Definition LF : string := String (ascii_of_nat 10) "".
Definition CR : string := String (ascii_of_nat 13) "".

Definition is_lf (c : ascii) : bool := (Py.code c =? 10)%N.
Definition is_cr (c : ascii) : bool := (Py.code c =? 13)%N.

(** Text mode reads CR LF and a lone CR as LF. *)
Fixpoint universal_newlines (s : string) : string :=
  match s with
  | EmptyString => EmptyString
  | String c s' =>
      if is_cr c then
        match s' with
        | String c' s'' =>
            if is_lf c' then universal_newlines s'
            else String (ascii_of_nat 10) (universal_newlines s')
        | EmptyString => LF
        end
      else String c (universal_newlines s')
  end.

(** The lines of a text, each with its line feed; the last one has none when
    the text does not end in one. *)
Fixpoint lines_from (cur s : string) : list string :=
  match s with
  | EmptyString => Py.flush cur []
  | String c s' =>
      if is_lf c then Py.rev_string "" (String c cur) :: lines_from "" s'
      else lines_from (String c cur) s'
  end.

Definition file : Type := list string.

(** [open(...)] on a file whose content is [text]. *)
Definition open (text : string) : file := lines_from "" (universal_newlines text).

(** [maf.readline()]: the line returned, and the file after it. *)
Definition readline (maf : file) : string := hd "" maf.
Definition advance (maf : file) : file :=
  match maf with
  | [] => maf
  | _ :: maf' => maf'
  end.


(** ** The line parser (lines 174-195) *)

(** The local variables of the loop: [read_length] is unbound until a
    [letters] comment has been read. *)
Record locals : Type := Locals {
  read_length : option Z;
  records : list (list string)
}.

Definition entry : locals := Locals None [].

(** [line.split()[1:5]]: the texts a sequence line gives to its record. *)
Definition fields (line : string) : list string :=
  Py.slice 1 5 (Py.split line).

(** One pass through the body of [while True], for the [line] just read and
    the file [maf] after it.  The three ways out of the body are the
    parameters: [continue] (next iteration), [break], and [raise]. *)
Definition loop_body {R : Type}
    (continue : file -> locals -> R) (break : locals -> R) (raise : exn -> R)
    (line : string) (maf : file) (v : locals) : R :=
  if Py.startswith line "#" then
    if Py.contains "letters" line then
      match nth_error (Py.split_sep line "letters=") 1 with
      | None => raise IndexError
      | Some s =>
          match Py.int s with
          | Raise e => raise e
          | Ok n => continue maf (Locals (Some n) (records v))
          end
      end
    else continue maf v
  else if Py.startswith line "a" then
    let r1 := fields (readline maf) in
    let maf := advance maf in
    let r2 := fields (readline maf) in
    let maf := advance maf in
    let maf := advance maf in
    continue maf (Locals (read_length v) (records v ++ [r1 ++ r2])%list)
  else if (line =? "")%string then break v
  else raise (IOError "Cannot read alignment file").

(** The loop.  At the end of the file [readline] returns the empty string,
    which starts with neither character and takes the [break] branch. *)
Fixpoint maf_loop (maf : file) (v : locals) {struct maf} : result locals :=
  match maf with
  | [] => Ok v
  | line :: maf' => loop_body maf_loop Ok Raise line maf' v
  end.

(** One iteration on its own, for statements about the lines the loop reads. *)
Inductive outcome : Type :=
| Continue (maf : file) (v : locals)
| Break (v : locals)
| Raised (e : exn).

Definition iteration (maf : file) (v : locals) : outcome :=
  match maf with
  | [] => Break v
  | line :: maf' => loop_body Continue Break Raised line maf' v
  end.

(** ** The data frame (lines 198-202) *)

Definition names : list string :=
  ["ref"; "rstart"; "rlen"; "rorient"; "query"; "qstart"; "qlen"; "qorient"].

(** A cell of an object column: a text, or [None] where the record was too
    short to reach the column. *)
Definition cell : Type := option string.

Definition width (records : list (list string)) : nat :=
  fold_right Nat.max O (map (@List.length string) records).

Definition pad (n : nat) (record : list string) : list cell :=
  (map Some record ++ repeat None (n - List.length record))%list.

(** [pd.DataFrame(records, columns=names)]: the rows are filled up with
    [None] to the longest record, and that length has to be the number of
    column names; no record at all gives the empty frame. *)
Definition DataFrame (records : list (list string)) : result (list (list cell)) :=
  match records with
  | [] => Ok []
  | _ =>
      if (width records =? List.length names)%nat
      then Ok (map (pad (List.length names)) records)
      else Raise ValueError
  end.

(** A row of the frame [df_all] once typed, and of the two frames [df]
    derived from it; [qend] and [rend] are [None] where the column does not
    exist or holds NaN. *)
Record row : Type := Row {
  ref : cell;
  rstart : Z;
  rlen : Z;
  rorient : cell;
  query : cell;
  qstart : Z;
  qlen : Z;
  qorient : cell;
  qend : option Z;
  rend : option Z
}.

Definition set_rstart (x : Z) (r : row) : row :=
  Row (ref r) x (rlen r) (rorient r) (query r) (qstart r) (qlen r) (qorient r)
      (qend r) (rend r).
Definition set_qstart (x : Z) (r : row) : row :=
  Row (ref r) (rstart r) (rlen r) (rorient r) (query r) x (qlen r) (qorient r)
      (qend r) (rend r).
Definition set_qend (x : Z) (r : row) : row :=
  Row (ref r) (rstart r) (rlen r) (rorient r) (query r) (qstart r) (qlen r)
      (qorient r) (Some x) (rend r).
Definition set_rend (x : Z) (r : row) : row :=
  Row (ref r) (rstart r) (rlen r) (rorient r) (query r) (qstart r) (qlen r)
      (qorient r) (qend r) (Some x).

(** *** 64-bit numbers *)

Definition in_int64 (n : Z) : bool :=
  (- 2 ^ 63 <=? n) && (n <? 2 ^ 63).

(** The value an integer operation leaves in a signed 64-bit cell. *)
Definition wrap64 (n : Z) : Z :=
  (n + 2 ^ 63) mod 2 ^ 64 - 2 ^ 63.

(** [n >= 0] rounded to a multiple of [2 ^ k], a tie going to the even
    multiple. *)
Definition round_half_even (n k : Z) : Z :=
  let q := Z.shiftr n k in
  let r := n - Z.shiftl q k in
  let half := Z.shiftl 1 (k - 1) in
  if r <? half then Z.shiftl q k
  else if half <? r then Z.shiftl (q + 1) k
  else if Z.even q then Z.shiftl q k
  else Z.shiftl (q + 1) k.

(** The 64-bit float nearest to an integer of the 64-bit range: a float has
    53 significant bits, so an integer below [2 ^ 53] in magnitude is kept
    and a larger one loses its low bits. *)
Definition float64 (n : Z) : Z :=
  let m := Z.abs n in
  if m <? 2 ^ 53 then n
  else Z.sgn n * round_half_even m (Z.log2 m - 52).

(** A cell converted to a 64-bit integer, as [astype] does with [int]: the
    text goes through Python's [int], and the integer has to fit.  A cell
    that holds no text is refused with a [TypeError] (pandas 2.2). *)
Definition to_int (c : cell) : result Z :=
  match c with
  | None => Raise TypeError
  | Some s =>
      n <- Py.int s ;;
      if in_int64 n then Ok n else Raise OverflowError
  end.

Definition column (i : nat) (df : list (list cell)) : list cell :=
  map (fun r => nth i r None) df.

Fixpoint assemble (df : list (list cell)) (a b c d : list Z) : list row :=
  match df, a, b, c, d with
  | o :: df', x :: a', y :: b', z :: c', w :: d' =>
      Row (nth 0 o None) x y (nth 3 o None) (nth 4 o None) z w (nth 7 o None)
          None None
      :: assemble df' a' b' c' d'
  | _, _, _, _, _ => []
  end.

(** [df_all.astype({'qstart': int, 'qlen': int, 'rstart': int, 'rlen': int})]:
    the four columns are converted one after the other, in the order in which
    the frame holds them. *)
Definition astype (df : list (list cell)) : result (list row) :=
  a <- mapM to_int (column 1 df) ;;
  b <- mapM to_int (column 2 df) ;;
  c <- mapM to_int (column 5 df) ;;
  d <- mapM to_int (column 6 df) ;;
  Ok (assemble df a b c d).

(** ** Column operations (lines 204-221) *)

Definition series (A : Type) : Type := list A.

Fixpoint zip_with {A B C : Type} (f : A -> B -> C) (l : list A) (m : list B)
  : list C :=
  match l, m with
  | x :: l', y :: m' => f x y :: zip_with f l' m'
  | _, _ => []
  end.

(** [df[name]] *)
Definition col {A : Type} (name : row -> A) (df : list row) : series A :=
  map name df.

(** [s.isin(values)] and [s == value] on an object column. *)
Definition cell_eqb (c : cell) (value : string) : bool :=
  match c with
  | Some s => (s =? value)%string
  | None => false
  end.

Definition isin (s : series cell) (values : list string) : series bool :=
  map (fun c => existsb (cell_eqb c) values) s.

Definition eq_value (s : series cell) (value : string) : series bool :=
  map (fun c => cell_eqb c value) s.

(** [df[mask]] *)
Fixpoint select (mask : series bool) (df : list row) : list row :=
  match mask, df with
  | m :: mask', r :: df' => if m then r :: select mask' df' else select mask' df'
  | _, _ => []
  end.

(** [df[name] = s] *)
Definition assign (set : Z -> row -> row) (df : list row) (s : series Z)
  : list row :=
  zip_with (fun r x => set x r) df s.

(** [df.loc[mask, name] = s]: the rows outside the mask keep their cell. *)
Fixpoint loc_assign (mask : series bool) (set : Z -> row -> row)
    (df : list row) (s : series Z) : list row :=
  match mask, df, s with
  | m :: mask', r :: df', x :: s' =>
      (if m then set x r else r) :: loc_assign mask' set df' s'
  | _, _, _ => []
  end.

(** [a + b] and [a - b] on 64-bit integer columns. *)
Definition series_add (a b : series Z) : series Z :=
  zip_with (fun x y => wrap64 (x + y)) a b.
Definition series_sub (a b : series Z) : series Z :=
  zip_with (fun x y => wrap64 (x - y)) a b.

(** [x - a] for a Python integer [x] and a 64-bit integer column [a]: [x]
    is taken as a 64-bit integer, which raises [OverflowError] when it does
    not fit. *)
Definition series_rsub (x : Z) (a : series Z) : result (series Z) :=
  if in_int64 x then Ok (map (fun y => wrap64 (x - y)) a)
  else Raise OverflowError.

(** An integer column stored in a column of floats. *)
Definition as_float (a : series Z) : series Z := map float64 a.

(** ** The plot (lines 212-214, 223-225) *)

Record segment : Type := Seg {
  x0 : Z;
  y0 : Z;
  x1 : option Z;
  y1 : option Z
}.

(** A glyph renderer: the segments drawn from the columns [rstart],
    [qstart], [rend] and [qend] of its data source, in one colour. *)
Record glyph : Type := Glyph {
  line_color : string;
  segments : list segment
}.

Definition plot : Type := list glyph.

Definition figure : plot := [].

Definition Segment (color : string) (source : list row) : glyph :=
  Glyph color (map (fun r => Seg (rstart r) (qstart r) (rend r) (qend r)) source).

Definition add_glyph (g : glyph) (p : plot) : plot := (p ++ [g])%list.

(** ** [dotplot_assembly] *)

(** Lines 198-202: the frame [df_all] made from the records of the loop. *)
Definition frame (v : locals) : result (list row) :=
  df_all <- DataFrame (records v) ;;
  astype df_all.

(** Reading a local variable that may be unbound. *)
Definition load (x : option Z) : result Z :=
  match x with
  | Some n => Ok n
  | None => Raise UnboundLocalError
  end.

(** Lines 203-226: the two passes over [df_all]. *)
Definition draw (read_length : option Z) (df_all : list row) : result plot :=
  let plot := figure in
  let df := select (isin (col qorient df_all) ["+"]) df_all in
  let df := assign set_qend df (series_add (col qstart df) (col qlen df)) in
  let df := loc_assign (eq_value (col rorient df) "+") set_rend df
              (as_float (series_add (col rstart df) (col rlen df))) in
  let df := loc_assign (eq_value (col rorient df) "-") set_rend df
              (as_float (col rstart df)) in
  let df := loc_assign (eq_value (col rorient df) "-") set_rstart df
              (series_sub (col rstart df) (col rlen df)) in
  let plot := add_glyph (Segment "black" df) plot in
  let df := select (isin (col qorient df_all) ["-"]) df_all in
  L <- load read_length ;;
  s <- series_rsub L (col qstart df) ;;
  let df := assign set_qstart df s in
  let df := assign set_qend df (series_sub (col qstart df) (col qlen df)) in
  let df := assign set_rend df (series_add (col rstart df) (col rlen df)) in
  let plot := add_glyph (Segment "red" df) plot in
  Ok plot.

(** What follows the loop, for a loop that ended as [r]. *)
Definition finish (r : result locals) : result plot :=
  v <- r ;;
  df_all <- frame v ;;
  draw (read_length v) df_all.

Definition dotplot_assembly (text : string) : result plot :=
  finish (maf_loop (open text) entry).

(** The file as the parser leaves it: [read_length] and [df_all]. *)
Definition read_maf (text : string) : result (option Z * list row) :=
  v <- maf_loop (open text) entry ;;
  df_all <- frame v ;;
  Ok (read_length v, df_all).

(** A row of [df_all] against the record it was made of: the texts of the
    record go to the columns in the order of [names], the four numeric
    columns through [int]. *)
Definition row_of (record : list string) (b : row) : Prop :=
  ref b = nth_error record 0 /\
  to_int (nth_error record 1) = Ok (rstart b) /\
  to_int (nth_error record 2) = Ok (rlen b) /\
  rorient b = nth_error record 3 /\
  query b = nth_error record 4 /\
  to_int (nth_error record 5) = Ok (qstart b) /\
  to_int (nth_error record 6) = Ok (qlen b) /\
  qorient b = nth_error record 7 /\
  qend b = None /\ rend b = None.

(** The blocks of the two passes, and the segment each pass makes of a
    block, written row by row. *)
Definition forward_blocks (df_all : list row) : list row :=
  filter (fun b => cell_eqb (qorient b) "+") df_all.

Definition reverse_blocks (df_all : list row) : list row :=
  filter (fun b => cell_eqb (qorient b) "-") df_all.

Definition forward_segment (b : row) : segment :=
  Seg (if cell_eqb (rorient b) "-" then wrap64 (rstart b - rlen b)
       else rstart b)
      (qstart b)
      (if cell_eqb (rorient b) "-" then Some (float64 (rstart b))
       else if cell_eqb (rorient b) "+"
            then Some (float64 (wrap64 (rstart b + rlen b)))
       else rend b)
      (Some (wrap64 (qstart b + qlen b))).

Definition reverse_segment (L : Z) (b : row) : segment :=
  Seg (rstart b) (wrap64 (L - qstart b))
      (Some (wrap64 (rstart b + rlen b)))
      (Some (wrap64 (wrap64 (L - qstart b) - qlen b))).

(** The lines the loop reads: [reads maf v maf' v'] when the loop, run on
    [maf] with locals [v], comes to the head of an iteration with the file at
    [maf'] and locals [v']. *)
Inductive reads : file -> locals -> file -> locals -> Prop :=
| reads_here : forall maf v, reads maf v maf v
| reads_next : forall maf v maf1 v1 maf' v',
    iteration maf v = Continue maf1 v1 ->
    reads maf1 v1 maf' v' ->
    reads maf v maf' v'.

(** ** Words *)

(** A text that [split] returns as one piece: not empty, and without white
    space. *)
Fixpoint spaceless (t : string) : bool :=
  match t with
  | EmptyString => true
  | String c t' => negb (Py.isspace c) && spaceless t'
  end.

Definition word (t : string) : bool := negb (t =? "")%string && spaceless t.

(** The words [ts], a blank after each. *)
Fixpoint unwords (ts : list string) : string :=
  match ts with
  | [] => ""
  | t :: ts' => (t ++ " " ++ unwords ts')%string
  end.

(** ** Example files *)

(** The text whose lines are [ls], each ended by a line feed. *)
Definition unlines (ls : list string) : string :=
  fold_right (fun l s => (l ++ LF ++ s)%string) "" ls.

(** The example of the spec: a [letters] comment, a block with both strands
    forward, and a block whose query is on the reverse strand. *)
Definition example_maf : string :=
  unlines ["# letters=1000";
           "a score=10";
           "s ref 10 5 + 100 ACGTA";
           "s qry 20 5 + 1000 ACGTA";
           "";
           "a score=8";
           "s ref 30 4 + 100 ACGT";
           "s qry 50 4 - 1000 ACGT";
           ""].

(** Both reference strands under both query strands. *)
Definition strands_maf : string :=
  unlines ["# letters=1000";
           "a score=10";
           "s ref 40 5 - 100 ACGTA";
           "s qry 20 5 + 1000 ACGTA";
           "";
           "a score=8";
           "s ref 30 4 - 100 ACGT";
           "s qry 50 4 - 1000 ACGT";
           "";
           "a score=6";
           "s ref 60 3 + 100 ACG";
           "s qry 70 3 - 1000 ACG";
           ""].

Definition strands_blocks : list row :=
  [Row (Some "ref") 40 5 (Some "-") (Some "qry") 20 5 (Some "+") None None;
   Row (Some "ref") 30 4 (Some "-") (Some "qry") 50 4 (Some "-") None None;
   Row (Some "ref") 60 3 (Some "+") (Some "qry") 70 3 (Some "-") None None].

(** The blocks of [example_maf] and, between them, a forward query on a
    reverse reference whose start, [2 ^ 53 + 1], is no 64-bit float. *)
Definition rounded_end_maf : string :=
  unlines ["# letters=1000";
           "a score=10";
           "s ref 10 5 + 100 ACGTA";
           "s qry 20 5 + 1000 ACGTA";
           "";
           "a score=9";
           "s ref 9007199254740993 5 - 9007199254741000 ACGTA";
           "s qry 40 5 + 1000 ACGTA";
           "";
           "a score=8";
           "s ref 30 4 + 100 ACGT";
           "s qry 50 4 - 1000 ACGT";
           ""].

Definition rounded_end_blocks : list row :=
  [Row (Some "ref") 10 5 (Some "+") (Some "qry") 20 5 (Some "+") None None;
   Row (Some "ref") 9007199254740993 5 (Some "-") (Some "qry") 40 5 (Some "+")
       None None;
   Row (Some "ref") 30 4 (Some "+") (Some "qry") 50 4 (Some "-") None None].

(** The blocks of [example_maf] and a reverse query whose mirrored start
    less its length is below [- 2 ^ 63]. *)
Definition query_wrap_maf : string :=
  unlines ["# letters=1000";
           "a score=10";
           "s ref 10 5 + 100 ACGTA";
           "s qry 20 5 + 1000 ACGTA";
           "";
           "a score=8";
           "s ref 30 4 + 100 ACGT";
           "s qry 50 4 - 1000 ACGT";
           "";
           "a score=7";
           "s ref 60 4 + 100 ACGT";
           "s qry 9223372036854775807 2000 - 9223372036854775807 ACGT";
           ""].

Definition query_wrap_blocks : list row :=
  [Row (Some "ref") 10 5 (Some "+") (Some "qry") 20 5 (Some "+") None None;
   Row (Some "ref") 30 4 (Some "+") (Some "qry") 50 4 (Some "-") None None;
   Row (Some "ref") 60 4 (Some "+") (Some "qry") 9223372036854775807 2000
       (Some "-") None None].

(** The blocks of [example_maf] and a reverse query on a reference whose
    start plus length is [2 ^ 63]. *)
Definition reference_wrap_maf : string :=
  unlines ["# letters=1000";
           "a score=10";
           "s ref 10 5 + 100 ACGTA";
           "s qry 20 5 + 1000 ACGTA";
           "";
           "a score=8";
           "s ref 30 4 + 100 ACGT";
           "s qry 50 4 - 1000 ACGT";
           "";
           "a score=7";
           "s ref 9223372036854775807 1 + 9223372036854775807 A";
           "s qry 70 1 - 1000 A";
           ""].

Definition reference_wrap_blocks : list row :=
  [Row (Some "ref") 10 5 (Some "+") (Some "qry") 20 5 (Some "+") None None;
   Row (Some "ref") 30 4 (Some "+") (Some "qry") 50 4 (Some "-") None None;
   Row (Some "ref") 9223372036854775807 1 (Some "+") (Some "qry") 70 1
       (Some "-") None None].

(** A sequence line as the spec lays it out:
    [s <name> <start> <len> <strand> <total_len> <text>]. *)
Definition sequence_line : string := ("s ref 10 5 + 100 ACGTA" ++ LF)%string.

Definition one_block_maf : string :=
  unlines ["# letters=1000";
           "a score=10";
           "s ref 10 5 + 100 ACGTA";
           "s qry 20 5 + 1000 ACGTA";
           ""].

(** The reference line of the second block has three tokens only, so the
    tokens of its query line come one column early. *)
Definition short_reference_maf : string :=
  unlines ["# letters=1000";
           "a score=10";
           "s ref 10 5 + 100 ACGTA";
           "s qry 20 5 + 1000 ACGTA";
           "";
           "a score=8";
           "s ref 30 4";
           "s qry 50 6 7 1000 A";
           ""].



(** The query line of the block has a start that is no integer. *)
Definition bad_start_maf : string :=
  unlines ["# letters=1000";
           "a score=10";
           "s ref 10 5 + 100 ACGTA";
           "s qry 2x 5 + 1000 ACGTA";
           ""].

(** No [letters] comment: a header, a blank line, and a block whose query is
    on the reverse strand. *)
Definition blank_line_maf : string :=
  unlines ["# batch 0";
           "";
           "a score=10";
           "s ref 10 5 + 100 ACGTA";
           "s qry 20 5 - 1000 ACGTA";
           ""].

(** No [letters] comment, and blocks on the forward strand only. *)
Definition forward_only_maf : string :=
  unlines ["# batch 0";
           "a score=10";
           "s ref 10 5 + 100 ACGTA";
           "s qry 20 5 + 1000 ACGTA";
           ""].

(** Comments: two [letters] comments, and one without the word. *)
Definition comments_maf : string :=
  unlines ["# Reference sequences=1 normal letters=7000";
           "# batch 0";
           "# Query sequences=1 normal letters=1000"].

Definition letters_then_text_maf : string := unlines ["# letters=1000 bp"].
Definition letters_without_value_maf : string := unlines ["# 1000 letters"].

(** A line that is neither a comment nor the start of a block. *)
Definition stray_line_maf : string :=
  unlines ["# letters=1000"; "s ref 10 5 + 100 ACGTA"].

(** Two files that differ in the fourth line of their block only: a
    [letters] comment in one, other text in the other. *)
Definition separator_comment_maf : string :=
  unlines ["# letters=1000";
           "a score=10";
           "s ref 10 5 + 100 ACGTA";
           "s qry 20 5 - 1000 ACGTA";
           "# letters=5";
           "a score=8";
           "s ref 30 4 + 100 ACGT";
           "s qry 50 4 - 1000 ACGT"].

Definition separator_text_maf : string :=
  unlines ["# letters=1000";
           "a score=10";
           "s ref 10 5 + 100 ACGTA";
           "s qry 20 5 - 1000 ACGTA";
           "no separator at all";
           "a score=8";
           "s ref 30 4 + 100 ACGT";
           "s qry 50 4 - 1000 ACGT"].

(** The comments of a file without a [letters=]: no line that begins with
    [#] holds the text. *)
Definition no_letters (maf : file) : bool :=
  forallb (fun line => negb (Py.startswith line "#" && Py.contains "letters=" line))
          maf.

(** A cell that [astype] converts. *)
Definition is_int (c : cell) : bool :=
  match to_int c with
  | Ok _ => true
  | Raise _ => false
  end.

(** * The other functions of [report_utils.py] *)

(** ** [insert_len] (lines 79-85) *)

Definition insert_len (start end_ length : Z) : Z :=
  if end_ >=? start then end_ - start else (length - start) + end_.

(** ** Python's lists and dictionaries *)

(** [x in l] *)
Definition list_in (x : string) (l : list string) : bool :=
  existsb (fun y => (y =? x)%string) l.

(** [l.remove(x)]: the list without the first [x]; [ValueError] when [x] is
    not in the list. *)
Fixpoint list_remove (x : string) (l : list string) : result (list string) :=
  match l with
  | [] => Raise ValueError
  | y :: l' =>
      if (y =? x)%string then Ok l'
      else l'' <- list_remove x l' ;; Ok (y :: l'')
  end.

(** [enumerate(l)] *)
Definition enumerate {A : Type} (l : list A) : list (nat * A) :=
  combine (seq 0 (List.length l)) l.

(** A dictionary: its items in the order in which the keys were first set. *)
Definition dict (K V : Type) : Type := list (K * V).

(** [d[k] = v]: a key the dictionary has keeps its place. *)
Fixpoint dict_set {K V : Type} (eqb : K -> K -> bool) (k : K) (v : V)
    (d : dict K V) : dict K V :=
  match d with
  | [] => [(k, v)]
  | (k', v') :: d' =>
      if eqb k' k then (k', v) :: d' else (k', v') :: dict_set eqb k v d'
  end.

(** [d.get(k)] *)
Fixpoint dict_get {K V : Type} (eqb : K -> K -> bool) (k : K) (d : dict K V)
  : option V :=
  match d with
  | [] => None
  | (k', v') :: d' => if eqb k' k then Some v' else dict_get eqb k d'
  end.

(** A loop over [l] whose body may raise. *)
Fixpoint foldM {A B : Type} (f : A -> B -> result A) (l : list B) (a : A)
  : result A :=
  match l with
  | [] => Ok a
  | x :: l' => a' <- f a x ;; foldM f l' a'
  end.

(** The values of a list in the order of their first appearance, as the
    keys of a dictionary filled from the list stand. *)
Fixpoint unique {A : Type} (eqb : A -> A -> bool) (l : list A) : list A :=
  match l with
  | [] => []
  | x :: l' => x :: filter (fun y => negb (eqb x y)) (unique eqb l')
  end.

(** ** [create_fastcat_dic] (lines 88-118) *)

(** The three lists of file names are objects the caller holds, and two of
    the arguments may be one object: a list is a reference into a store. *)
Definition list_ref : Type := nat.
Definition store : Type := list_ref -> list string.

Definition store_set (s : store) (r : list_ref) (l : list string) : store :=
  fun r' => if (r' =? r)%nat then l else s r'.

Definition host_optional : string := "host_filter_stats/OPTIONAL_FILE".
Definition downsampled_optional : string := "downsampled_stats/OPTIONAL_FILE".

(** What the name [host_filt] or [summary_stats] is bound to: the caller's
    list, or the new empty list that stands for the [None] returned by
    [remove]. *)
Inductive file_list : Type :=
| Caller (r : list_ref)
| Empty.

Definition file_names (s : store) (l : file_list) : list string :=
  match l with
  | Caller r => s r
  | Empty => []
  end.

(** Lines 91-96 and 97-103: when the placeholder of an optional file is in
    the list, it is removed from the caller's list and the name is bound to
    a new empty list; otherwise the name is bound to the caller's list. *)
Definition drop_optional (optional : string) (files : list_ref) (s : store)
  : result (file_list * store) :=
  if list_in optional (s files) then
    l <- list_remove optional (s files) ;;
    Ok (Empty, store_set s files l)
  else Ok (Caller files, s).

(** [[i for i, s in enumerate(fc_list) if item_search in s]] *)
Definition item_index (item_search : string) (fc_list : list string) : list nat :=
  map fst (filter (fun p => Py.contains item_search (snd p)) (enumerate fc_list)).

(** Lines 109-116: one pass of the loop over [lists.items()]. *)
Definition add_item (item_search : string) (new_dic : dict string string)
    (item : string * list string) : result (dict string string) :=
  match item_index item_search (snd item) with
  | indice :: _ =>
      match nth_error (snd item) indice with
      | Some name => Ok (dict_set String.eqb (fst item) name new_dic)
      | None => Raise IndexError
      end
  | [] => Ok new_dic
  end.

Section Fastcat.

(** The sample names are values of any type that [str] turns into text and
    that a dictionary can hold as keys. *)
Variable sample : Type.
Variable str : sample -> string.
Variable sample_eqb : sample -> sample -> bool.

(** Lines 106-117: one pass of the loop over [sample_names]. *)
Definition add_sample (lists : dict string (list string))
    (per_sample_dic : dict sample (dict string string)) (name : sample)
  : result (dict sample (dict string string)) :=
  let item_search := ("/" ++ str name ++ ".")%string in
  new_dic <- foldM (add_item item_search) lists [] ;;
  Ok (dict_set sample_eqb name new_dic per_sample_dic).

(** The dictionary returned, and the store as the call leaves it. *)
Definition create_fastcat_dic (sample_names : list sample)
    (raw host_file downsampled_file : list_ref) (s : store)
  : result (dict sample (dict string string) * store) :=
  p <- drop_optional host_optional host_file s ;;
  let host_filt := fst p in
  let s := snd p in
  p <- drop_optional downsampled_optional downsampled_file s ;;
  let summary_stats := fst p in
  let s := snd p in
  let lists := [("Raw", s raw);
                ("Hostfilt", file_names s host_filt);
                ("Downsampled", file_names s summary_stats)] in
  per_sample_dic <- foldM (add_sample lists) sample_names [] ;;
  Ok (per_sample_dic, s).

End Fastcat.

(** The first file name of a list that holds [/<sample>.]. *)
Definition first_match (item_search : string) (fc_list : list string)
  : option string :=
  find (fun name => Py.contains item_search name) fc_list.

(** The items a sample gets from the lists: for each list, in their order,
    its first match if it has one. *)
Definition sample_files (item_search : string) (lists : dict string (list string))
  : dict string string :=
  flat_map (fun item =>
              match first_match item_search (snd item) with
              | Some name => [(fst item, name)]
              | None => []
              end)
           lists.

(** A list without the first [x], when it has one. *)
Fixpoint without_first (x : string) (l : list string) : list string :=
  match l with
  | [] => []
  | y :: l' => if (y =? x)%string then l' else y :: without_first x l'
  end.

(** The store after the placeholder of an optional file was looked for in
    the list [files], and the store as [create_fastcat_dic] leaves it. *)
Definition after_optional (optional : string) (files : list_ref) (s : store)
  : store :=
  if list_in optional (s files)
  then store_set s files (without_first optional (s files))
  else s.

Definition fastcat_store (host_file downsampled_file : list_ref) (s : store)
  : store :=
  after_optional downsampled_optional downsampled_file
    (after_optional host_optional host_file s).

(** The three lists as the loop over the samples finds them. *)
Definition fastcat_lists (raw host_file downsampled_file : list_ref) (s : store)
  : dict string (list string) :=
  let s' := fastcat_store host_file downsampled_file s in
  [("Raw", s' raw);
   ("Hostfilt", if list_in host_optional (s host_file) then [] else s' host_file);
   ("Downsampled",
    if list_in downsampled_optional (s downsampled_file) then []
    else s' downsampled_file)].

(** Three lists of a caller, as the references 0, 1 and 2 of a store. *)
Definition example_store : store :=
  fun r =>
    match r with
    | 0%nat => ["raw/s1.stats"; "raw/s10.stats"; "raw/s2.stats"]
    | 1%nat => ["host_filter_stats/OPTIONAL_FILE"; "host/s1.stats"]
    | 2%nat => ["down/s10.stats"; "down/s1.stats"; "down/s1.b"]
    | _ => []
    end.

(** ** More files for [dotplot_assembly] *)

(** The four lines of a complete block. *)
Record block_text : Type := Block {
  a_line : string;
  reference_line : string;
  query_line : string;
  separator_line : string
}.

Definition block_lines (b : block_text) : list string :=
  [a_line b; reference_line b; query_line b; separator_line b].

Definition block_record (b : block_text) : list string :=
  (fields (reference_line b) ++ fields (query_line b))%list.

Definition block_start (line : string) : bool :=
  negb (Py.startswith line "#") && Py.startswith line "a".

(** A text with every line feed written as carriage return and line feed. *)
Fixpoint crlf (s : string) : string :=
  match s with
  | EmptyString => EmptyString
  | String c s' =>
      if is_lf c then String (ascii_of_nat 13) (String c (crlf s'))
      else String c (crlf s')
  end.

Fixpoint no_cr (s : string) : bool :=
  match s with
  | EmptyString => true
  | String c s' => negb (is_cr c) && no_cr s'
  end.

(** A forward query on a forward reference, and one on a reference whose
    strand is neither [+] nor [-]. *)
Definition odd_strand_maf : string :=
  unlines ["# letters=1000";
           "a score=10";
           "s ref 10 5 + 100 ACGTA";
           "s qry 20 5 + 1000 ACGTA";
           "";
           "a score=8";
           "s ref 30 4 ? 100 ACGT";
           "s qry 50 4 + 1000 ACGT";
           ""].

Definition odd_strand_blocks : list row :=
  [Row (Some "ref") 10 5 (Some "+") (Some "qry") 20 5 (Some "+") None None;
   Row (Some "ref") 30 4 (Some "?") (Some "qry") 50 4 (Some "+") None None].

(** The two blocks of [example_maf]. *)
Definition example_blocks : list block_text :=
  [Block ("a score=10" ++ LF) ("s ref 10 5 + 100 ACGTA" ++ LF)
         ("s qry 20 5 + 1000 ACGTA" ++ LF) LF;
   Block ("a score=8" ++ LF) ("s ref 30 4 + 100 ACGT" ++ LF)
         ("s qry 50 4 - 1000 ACGT" ++ LF) LF].


(** A file that ends after the reference line of its second block. *)
Definition truncated_maf : string :=
  unlines ["# letters=1000";
           "a score=10";
           "s ref 10 5 + 100 ACGTA";
           "s qry 20 5 + 1000 ACGTA";
           "";
           "a score=8";
           "s ref 30 4 + 100 ACGT"].

(** * Properties *)

(** ** Python's [split] on a line of words *)

Lemma rev_string_rev_string (t a b : string) :
  Py.rev_string a (Py.rev_string b t) = Py.rev_string (t ++ a) b.
Proof.
  revert a b. induction t as [|c t IH]; intros a b; simpl; [reflexivity|].
  now rewrite IH.
Qed.

Lemma append_empty_r (s : string) : (s ++ "")%string = s.
Proof. induction s as [|c s IH]; simpl; congruence. Qed.

Lemma split_ws_spaceless (t cur s : string) :
  spaceless t = true ->
  Py.split_ws cur (t ++ s) = Py.split_ws (Py.rev_string cur t) s.
Proof.
  revert cur. induction t as [|c t IH]; intros cur H; simpl in *.
  - reflexivity.
  - apply andb_true_iff in H as [Hc Ht]. apply negb_true_iff in Hc.
    rewrite Hc. now apply IH.
Qed.

Lemma rev_string_not_empty (c : ascii) (t acc : string) :
  Py.rev_string acc (String c t) <> "".
Proof.
  revert c acc. induction t as [|d t IH]; intros c acc; simpl.
  - discriminate.
  - apply (IH d (String c acc)).
Qed.

(** [split] gives back the words of a line that was written with one blank
    after each word. *)
Lemma split_unwords (ts : list string) :
  forallb word ts = true -> Py.split (unwords ts) = ts.
Proof.
  unfold Py.split. induction ts as [|t ts IH]; simpl; [reflexivity|].
  intros H. apply andb_true_iff in H as [Ht Hts].
  apply andb_true_iff in Ht as [Hne Hsp]. apply negb_true_iff in Hne.
  rewrite (split_ws_spaceless _ _ _ Hsp). simpl. rewrite (IH Hts).
  destruct t as [|c t]; [discriminate|].
  pose proof (rev_string_not_empty c t "") as Hrev.
  unfold Py.flush. destruct (Py.rev_string "" (String c t)) eqn:E;
    [congruence|].
  rewrite <- E, rev_string_rev_string, append_empty_r. reflexivity.
Qed.

(** ** Lists, series and the exception monad *)

Lemma bind_Ok_inv {A B : Type} (m : result A) (k : A -> result B) (b : B) :
  bind m k = Ok b -> exists a, m = Ok a /\ k a = Ok b.
Proof.
  destruct m as [a|e]; simpl; intros H; [exists a; auto | discriminate].
Qed.

Lemma mapM_Ok_Forall2 {A B : Type} (f : A -> result B) (l : list A) (l' : list B) :
  mapM f l = Ok l' <-> Forall2 (fun x y => f x = Ok y) l l'.
Proof.
  revert l'; induction l as [|x l IH]; intros l'; simpl.
  - split; intros H; [injection H as <-; constructor | inversion H; reflexivity].
  - split.
    + intros H. apply bind_Ok_inv in H as (y & Hy & H).
      apply bind_Ok_inv in H as (ys & Hys & H). injection H as <-.
      constructor; [assumption | now apply IH].
    + intros H. inversion H as [|? y ? ys Hy Hys]; subst.
      rewrite Hy; simpl. apply IH in Hys. rewrite Hys. reflexivity.
Qed.

Lemma zip_with_map {A B C D : Type} (f : B -> C -> D) (g : A -> B) (h : A -> C)
    (l : list A) :
  zip_with f (map g l) (map h l) = map (fun x => f (g x) (h x)) l.
Proof. induction l; simpl; congruence. Qed.

Lemma select_map (p : row -> bool) (df : list row) :
  select (map p df) df = filter p df.
Proof.
  induction df as [|r df IH]; simpl; [reflexivity|].
  destruct (p r); rewrite IH; reflexivity.
Qed.

Lemma assign_map (set : Z -> row -> row) (s : row -> Z) (df : list row) :
  assign set df (map s df) = map (fun r => set (s r) r) df.
Proof. unfold assign. induction df; simpl; congruence. Qed.

Lemma loc_assign_map (m : row -> bool) (set : Z -> row -> row) (s : row -> Z)
    (df : list row) :
  loc_assign (map m df) set df (map s df)
  = map (fun r => if m r then set (s r) r else r) df.
Proof. induction df; simpl; congruence. Qed.

Lemma assign_maps {A : Type} (set : Z -> row -> row) (g : A -> row)
    (s : A -> Z) (l : list A) :
  assign set (map g l) (map s l) = map (fun x => set (s x) (g x)) l.
Proof. unfold assign. induction l; simpl; congruence. Qed.

Lemma loc_assign_maps {A : Type} (m : A -> bool) (set : Z -> row -> row)
    (g : A -> row) (s : A -> Z) (l : list A) :
  loc_assign (map m l) set (map g l) (map s l)
  = map (fun x => if m x then set (s x) (g x) else g x) l.
Proof. induction l; simpl; congruence. Qed.

Lemma isin_one (s : series cell) (value : string) :
  isin s [value] = eq_value s value.
Proof.
  unfold isin, eq_value. apply map_ext. intros c. simpl. apply orb_false_r.
Qed.

(** ** 64-bit numbers *)

Lemma in_int64_range (n : Z) :
  in_int64 n = true <-> - 2 ^ 63 <= n < 2 ^ 63.
Proof. unfold in_int64. rewrite andb_true_iff, Z.leb_le, Z.ltb_lt. tauto. Qed.

(** An operation whose exact result fits leaves that result. *)
Lemma wrap64_exact (n : Z) : - 2 ^ 63 <= n < 2 ^ 63 -> wrap64 n = n.
Proof.
  intros H. unfold wrap64.
  change (2 ^ 63) with 9223372036854775808 in *.
  change (2 ^ 64) with 18446744073709551616.
  rewrite Z.mod_small; lia.
Qed.

Lemma wrap64_in_int64 (n : Z) : in_int64 (wrap64 n) = true.
Proof.
  apply in_int64_range. unfold wrap64.
  change (2 ^ 63) with 9223372036854775808.
  change (2 ^ 64) with 18446744073709551616.
  pose proof (Z.mod_pos_bound (n + 9223372036854775808) 18446744073709551616).
  lia.
Qed.

(** A float holds every integer up to [2 ^ 53] in magnitude. *)
Lemma float64_exact (n : Z) : Z.abs n <= 2 ^ 53 -> float64 n = n.
Proof.
  intros H. unfold float64. cbv zeta.
  destruct (Z.abs n <? 2 ^ 53) eqn:E; [reflexivity|].
  apply Z.ltb_ge in E.
  assert (Hn : Z.abs n = 2 ^ 53) by lia.
  rewrite Hn.
  change (2 ^ 53) with 9007199254740992 in *.
  destruct (Z.abs_spec n) as [[_ Hp]|[_ Hp]].
  - assert (n = 9007199254740992) as -> by lia. reflexivity.
  - assert (n = - 9007199254740992) as -> by lia. reflexivity.
Qed.

Lemma to_int_in_int64 (c : cell) (n : Z) :
  to_int c = Ok n -> in_int64 n = true.
Proof.
  destruct c as [s|]; simpl; [|discriminate].
  destruct (Py.int s) as [m|e]; simpl; [|discriminate].
  destruct (in_int64 m) eqn:E; [|discriminate].
  now intros [= <-].
Qed.

Lemma to_int_Some (s : string) (n : Z) :
  to_int (Some s) = Ok n <-> Py.int s = Ok n /\ in_int64 n = true.
Proof.
  simpl. destruct (Py.int s) as [m|e]; simpl.
  - destruct (in_int64 m) eqn:E; split.
    + intros [= <-]. auto.
    + intros [[= <-] _]. reflexivity.
    + discriminate.
    + intros [[= <-] H]. congruence.
  - split; [discriminate | intros [? _]; discriminate].
Qed.

(** ** The two passes, row by row *)

(** The column operations of [draw] amount to one transform per block:
    [forward_segment] on the blocks whose query is on the forward strand,
    [reverse_segment] on those whose query is on the reverse strand; the
    second pass needs [read_length] bound to an integer of 64 bits. *)
Lemma draw_rows (rl : option Z) (df_all : list row) :
  draw rl df_all
  = (L <- load rl ;;
     if in_int64 L
     then Ok [Glyph "black" (map forward_segment (forward_blocks df_all));
              Glyph "red" (map (reverse_segment L) (reverse_blocks df_all))]
     else Raise OverflowError).
Proof.
  unfold draw. rewrite !isin_one.
  unfold col, eq_value, series_add, series_sub, series_rsub, as_float,
    Segment, add_glyph, figure.
  cbv zeta.
  destruct rl as [L|]; simpl; [|reflexivity].
  destruct (in_int64 L); simpl; [|reflexivity].
  repeat (rewrite ?map_map, ?zip_with_map, ?select_map, ?assign_map,
            ?assign_maps, ?loc_assign_map, ?loc_assign_maps).
  unfold forward_blocks, reverse_blocks, forward_segment, reverse_segment.
  do 3 f_equal. apply map_ext; intros b; simpl.
  destruct (cell_eqb (rorient b) "+") eqn:Hp; simpl;
    destruct (cell_eqb (rorient b) "-") eqn:Hm; simpl;
    rewrite ?Hp, ?Hm; simpl; rewrite ?Hp, ?Hm; reflexivity.
Qed.

(** ** The loop *)

(** The body on the empty string, which [readline] returns at the end of the
    file, takes the [break] branch: the case of [maf_loop] and of [iteration]
    for a file that is read to its end. *)
Lemma loop_body_end_of_file {R : Type} (continue : file -> locals -> R)
    (break : locals -> R) (raise : exn -> R) (maf : file) (v : locals) :
  loop_body continue break raise "" maf v = break v.
Proof. reflexivity. Qed.

Lemma maf_loop_iteration (maf : file) (v : locals) :
  maf_loop maf v
  = match iteration maf v with
    | Continue maf' v' => maf_loop maf' v'
    | Break v' => Ok v'
    | Raised e => Raise e
    end.
Proof.
  destruct maf as [|line rest]; [reflexivity|].
  simpl. unfold loop_body.
  destruct (Py.startswith line "#").
  - destruct (Py.contains "letters" line); [|reflexivity].
    destruct (nth_error (Py.split_sep line "letters=") 1); [|reflexivity].
    destruct (Py.int s); reflexivity.
  - destruct (Py.startswith line "a"); [reflexivity|].
    destruct (line =? "")%string; reflexivity.
Qed.

Lemma advance_length (maf : file) :
  (List.length (advance maf) <= List.length maf)%nat.
Proof. destruct maf; simpl; lia. Qed.

(** What an iteration that goes on has done: it has read a comment, or a
    block of four lines whose record it has appended. *)
Lemma iteration_Continue (maf maf' : file) (v v' : locals) :
  iteration maf v = Continue maf' v' ->
  exists line rest, maf = line :: rest /\
    ((Py.startswith line "#" = true /\ maf' = rest /\ records v' = records v)
     \/ (Py.startswith line "#" = false /\ Py.startswith line "a" = true /\
         maf' = advance (advance (advance rest)) /\
         v' = Locals (read_length v)
                (records v ++ [fields (readline rest)
                               ++ fields (readline (advance rest))])%list)).
Proof.
  destruct maf as [|line rest]; [discriminate|].
  intros H. exists line, rest. split; [reflexivity|].
  simpl in H. unfold loop_body in H.
  destruct (Py.startswith line "#").
  - left. destruct (Py.contains "letters" line).
    + destruct (nth_error (Py.split_sep line "letters=") 1); [|discriminate].
      destruct (Py.int s); [|discriminate].
      injection H as <- <-. auto.
    + injection H as <- <-. auto.
  - right. destruct (Py.startswith line "a").
    + injection H as <- <-. auto.
    + destruct (line =? "")%string; discriminate.
Qed.

Lemma iteration_shorter (maf maf' : file) (v v' : locals) :
  iteration maf v = Continue maf' v' ->
  (List.length maf' < List.length maf)%nat.
Proof.
  intros H. apply iteration_Continue in H as (line & rest & -> & [H|H]).
  - destruct H as (_ & -> & _). simpl. lia.
  - destruct H as (_ & _ & -> & _). simpl.
    pose proof (advance_length rest).
    pose proof (advance_length (advance rest)).
    pose proof (advance_length (advance (advance rest))). lia.
Qed.

Lemma iteration_Break (maf : file) (v v' : locals) :
  iteration maf v = Break v' -> v' = v.
Proof.
  destruct maf as [|line rest]; simpl; [congruence|].
  unfold loop_body.
  destruct (Py.startswith line "#").
  - destruct (Py.contains "letters" line); [|discriminate].
    destruct (nth_error (Py.split_sep line "letters=") 1); [|discriminate].
    destruct (Py.int s); discriminate.
  - destruct (Py.startswith line "a"); [discriminate|].
    destruct (line =? "")%string; congruence.
Qed.

(** The invariant rule of the loop: what every iteration keeps holds of the
    locals the loop returns. *)
Lemma maf_loop_invariant (I : file -> locals -> Prop) :
  (forall maf v maf' v',
      I maf v -> iteration maf v = Continue maf' v' -> I maf' v') ->
  forall maf v v',
    I maf v -> maf_loop maf v = Ok v' ->
    exists maf', I maf' v' /\ iteration maf' v' = Break v'.
Proof.
  intros Hstep maf.
  remember (List.length maf) as n eqn:Hn.
  revert maf Hn. induction n as [n IH] using lt_wf_ind.
  intros maf -> v v' HI Hloop.
  rewrite maf_loop_iteration in Hloop.
  destruct (iteration maf v) as [maf1 v1| v1 |e] eqn:Hit.
  - eapply (IH (List.length maf1)); eauto using iteration_shorter.
  - injection Hloop as ->.
    pose proof (iteration_Break _ _ _ Hit) as ->. eauto.
  - discriminate.
Qed.

Lemma reads_invariant (I : file -> locals -> Prop) :
  (forall maf v maf' v',
      I maf v -> iteration maf v = Continue maf' v' -> I maf' v') ->
  forall maf v maf' v', reads maf v maf' v' -> I maf v -> I maf' v'.
Proof.
  intros Hstep maf v maf' v' H. induction H; eauto.
Qed.

Lemma reads_maf_loop (maf maf' : file) (v v' : locals) :
  reads maf v maf' v' -> maf_loop maf v = maf_loop maf' v'.
Proof.
  intros H. induction H as [|maf v maf1 v1 maf' v' Hit _ IH]; [reflexivity|].
  rewrite maf_loop_iteration, Hit. exact IH.
Qed.

Lemma reads_dotplot_assembly (text : string) (maf : file) (v : locals) :
  reads (open text) entry maf v ->
  dotplot_assembly text = finish (maf_loop maf v).
Proof.
  intros H. unfold dotplot_assembly. now rewrite (reads_maf_loop _ _ _ _ H).
Qed.

(** The records only grow. *)
Lemma iteration_records (maf maf' : file) (v v' : locals) :
  iteration maf v = Continue maf' v' ->
  exists more, records v' = (records v ++ more)%list.
Proof.
  intros H. apply iteration_Continue in H as (line & rest & _ & [H|H]).
  - destruct H as (_ & _ & ->). exists []. now rewrite app_nil_r.
  - destruct H as (_ & _ & _ & ->). simpl. eauto.
Qed.

Lemma maf_loop_records (maf : file) (v v' : locals) :
  maf_loop maf v = Ok v' ->
  exists more, records v' = (records v ++ more)%list.
Proof.
  intros H.
  destruct (maf_loop_invariant
              (fun _ w => exists more, records w = (records v ++ more)%list))
    with (maf := maf) (v := v) (v' := v') as (maf' & Hinv & _); auto.
  - intros m w m' w' (more & Hw) Hit.
    apply iteration_records in Hit as (more' & ->).
    rewrite Hw, <- app_assoc. eauto.
  - exists []. now rewrite app_nil_r.
Qed.

(** ** The frame *)

Lemma nth_pad (n i : nat) (record : list string) :
  nth i (pad n record) None = nth_error record i.
Proof.
  unfold pad. generalize (n - List.length record)%nat as k. intros k.
  revert i. induction record as [|t record IH]; intros i; simpl.
  - rewrite nth_repeat. now destruct i.
  - destruct i; simpl; [reflexivity | apply IH].
Qed.

Lemma DataFrame_Ok (recs : list (list string)) (df : list (list cell)) :
  DataFrame recs = Ok df -> df = map (pad (List.length names)) recs.
Proof.
  unfold DataFrame. destruct recs as [|r recs]; [intros [= <-]; reflexivity|].
  destruct (width (r :: recs) =? List.length names)%nat; [|discriminate].
  now intros [= <-].
Qed.

Lemma assemble_rows (df : list (list cell)) (a b c d : list Z) :
  Forall2 (fun x y => to_int x = Ok y) (column 1 df) a ->
  Forall2 (fun x y => to_int x = Ok y) (column 2 df) b ->
  Forall2 (fun x y => to_int x = Ok y) (column 5 df) c ->
  Forall2 (fun x y => to_int x = Ok y) (column 6 df) d ->
  Forall2 (fun o r =>
             ref r = nth 0 o None /\ to_int (nth 1 o None) = Ok (rstart r) /\
             to_int (nth 2 o None) = Ok (rlen r) /\ rorient r = nth 3 o None /\
             query r = nth 4 o None /\ to_int (nth 5 o None) = Ok (qstart r) /\
             to_int (nth 6 o None) = Ok (qlen r) /\ qorient r = nth 7 o None /\
             qend r = None /\ rend r = None)
          df (assemble df a b c d).
Proof.
  revert a b c d. induction df as [|o df IH]; intros a b c d Ha Hb Hc Hd.
  - constructor.
  - unfold column in *. simpl in *.
    inversion Ha; subst. inversion Hb; subst.
    inversion Hc; subst. inversion Hd; subst. simpl.
    constructor; [simpl; tauto | now apply IH].
Qed.

Lemma astype_rows (df : list (list cell)) (rows : list row) :
  astype df = Ok rows ->
  Forall2 (fun o r =>
             ref r = nth 0 o None /\ to_int (nth 1 o None) = Ok (rstart r) /\
             to_int (nth 2 o None) = Ok (rlen r) /\ rorient r = nth 3 o None /\
             query r = nth 4 o None /\ to_int (nth 5 o None) = Ok (qstart r) /\
             to_int (nth 6 o None) = Ok (qlen r) /\ qorient r = nth 7 o None /\
             qend r = None /\ rend r = None)
          df rows.
Proof.
  unfold astype. intros H.
  apply bind_Ok_inv in H as (a & Ha & H). apply bind_Ok_inv in H as (b & Hb & H).
  apply bind_Ok_inv in H as (c & Hc & H). apply bind_Ok_inv in H as (d & Hd & H).
  injection H as <-.
  apply assemble_rows; now apply mapM_Ok_Forall2.
Qed.

(** Every record of the loop gives one row of [df_all], in the order of the
    file. *)
Lemma frame_rows (v : locals) (df_all : list row) :
  frame v = Ok df_all -> Forall2 row_of (records v) df_all.
Proof.
  unfold frame. intros H. apply bind_Ok_inv in H as (df & Hdf & H).
  apply DataFrame_Ok in Hdf as ->. apply astype_rows in H.
  revert df_all H. induction (records v) as [|rec recs IH]; intros df_all H.
  - inversion H. constructor.
  - simpl in H. inversion H as [|? r ? rows Hr Hrows]; subst.
    constructor; [|now apply IH].
    unfold row_of. rewrite !nth_pad in Hr. exact Hr.
Qed.

Lemma Forall2_In_l {A B : Type} (P : A -> B -> Prop) (l : list A) (m : list B)
    (x : A) :
  Forall2 P l m -> In x l -> exists y, In y m /\ P x y.
Proof.
  induction 1 as [|a b l m Hab _ IH]; simpl; [tauto|].
  intros [->|Hin]; [eauto|]. destruct (IH Hin) as (y & ? & ?). eauto.
Qed.

(** ** The segments of a file that is read without error *)

Lemma cell_eqb_eq (c : cell) (value : string) :
  cell_eqb c value = true <-> c = Some value.
Proof.
  destruct c as [s|]; simpl; [|split; discriminate].
  rewrite String.eqb_eq. split; congruence.
Qed.

Lemma read_maf_Ok (text : string) (rl : option Z) (df_all : list row) :
  read_maf text = Ok (rl, df_all) ->
  exists v, maf_loop (open text) entry = Ok v /\ frame v = Ok df_all /\
            read_length v = rl.
Proof.
  unfold read_maf. intros H. apply bind_Ok_inv in H as (v & Hv & H).
  apply bind_Ok_inv in H as (df & Hdf & H). injection H as <- <-. eauto.
Qed.

(** With [read_length] bound to an integer of 64 bits, the plot holds the
    forward segments in black and then the reverse segments in red, one per
    block and in the order of the file. *)
Lemma dotplot_assembly_segments (text : string) (L : Z) (df_all : list row) :
  read_maf text = Ok (Some L, df_all) ->
  in_int64 L = true ->
  dotplot_assembly text
  = Ok [Glyph "black" (map forward_segment (forward_blocks df_all));
        Glyph "red" (map (reverse_segment L) (reverse_blocks df_all))].
Proof.
  intros H HL64. apply read_maf_Ok in H as (v & Hv & Hdf & HL).
  unfold dotplot_assembly, finish. rewrite Hv. simpl. rewrite Hdf. simpl.
  rewrite draw_rows, HL. simpl. rewrite HL64. reflexivity.
Qed.

Lemma Forall2_map_r {A B : Type} (P : A -> B -> Prop) (f : A -> B) (l : list A) :
  (forall x, In x l -> P x (f x)) -> Forall2 P l (map f l).
Proof.
  induction l as [|x l IH]; simpl; intros H; constructor; auto.
Qed.

(** ** The claims *)

(** C1. The example of the spec: for the file with the comment
    [# letters=1000], a forward/forward block (reference 10, length 5; query
    20, length 5) and a reverse-query block (reference 30, length 4; query 50,
    length 4), the build returns exactly one forward (black) segment
    (10,20)-(15,25) and exactly one reverse (red) segment (30,950)-(34,946). *)
Theorem example_segments :
  dotplot_assembly example_maf
  = Ok [Glyph "black" [Seg 10 20 (Some 15) (Some 25)];
        Glyph "red" [Seg 30 950 (Some 34) (Some 946)]].
Proof.
  rewrite (dotplot_assembly_segments example_maf 1000
             [Row (Some "ref") 10 5 (Some "+") (Some "qry") 20 5 (Some "+")
                  None None;
              Row (Some "ref") 30 4 (Some "+") (Some "qry") 50 4 (Some "-")
                  None None]).
  - reflexivity.
  - vm_compute. reflexivity.
  - reflexivity.
Qed.

(** The segments of [strands_maf]: the forward query on a reverse reference
    runs from 35 to 40, the two reverse queries run forward on the reference,
    on a reverse reference (30 to 34) as on a forward one (60 to 63). *)
Example strands_segments :
  read_maf strands_maf = Ok (Some 1000, strands_blocks) /\
  dotplot_assembly strands_maf
  = Ok [Glyph "black" [Seg 35 20 (Some 40) (Some 25)];
        Glyph "red" [Seg 30 950 (Some 34) (Some 946);
                     Seg 60 930 (Some 63) (Some 927)]].
Proof. split; vm_compute; reflexivity. Qed.

(** C2, amended.  For every block of a file the build accepts
    whose query is on the forward strand and whose reference is on the
    reverse strand, the segment drawn ends at the reference start that was
    read, converted to a 64-bit float, and starts at that start minus the
    reference length, computed in 64 bits: the end is the start as read when
    that start is at most [2 ^ 53] in magnitude, and the start is the exact
    difference when the difference fits in 64 bits.  The end is taken from
    the start as read, before the start is overwritten. *)
Theorem reverse_reference_interval (text : string) (L : Z) (df_all : list row) :
  read_maf text = Ok (Some L, df_all) ->
  in_int64 L = true ->
  exists black red,
    dotplot_assembly text = Ok [black; red] /\
    line_color black = "black" /\
    Forall2 (fun b s =>
               rorient b = Some "-" ->
               x1 s = Some (float64 (rstart b)) /\
               x0 s = wrap64 (rstart b - rlen b) /\
               (Z.abs (rstart b) <= 2 ^ 53 -> x1 s = Some (rstart b)) /\
               (- 2 ^ 63 <= rstart b - rlen b < 2 ^ 63 ->
                x0 s = rstart b - rlen b))
            (forward_blocks df_all) (segments black).
Proof.
  intros H HL. apply dotplot_assembly_segments in H; [|exact HL].
  eexists _, _. split; [exact H|]. split; [reflexivity|]. simpl.
  apply Forall2_map_r. intros b _ Hb. apply cell_eqb_eq in Hb.
  unfold forward_segment. rewrite Hb. simpl.
  repeat split.
  - intros Hr. now rewrite float64_exact.
  - intros Hr. now apply wrap64_exact.
Qed.

Lemma reverse_reference_interval_witness :
  exists black red,
    dotplot_assembly strands_maf = Ok [black; red] /\
    line_color black = "black" /\
    Forall2 (fun b s =>
               rorient b = Some "-" ->
               x1 s = Some (float64 (rstart b)) /\
               x0 s = wrap64 (rstart b - rlen b) /\
               (Z.abs (rstart b) <= 2 ^ 53 -> x1 s = Some (rstart b)) /\
               (- 2 ^ 63 <= rstart b - rlen b < 2 ^ 63 ->
                x0 s = rstart b - rlen b))
            (forward_blocks strands_blocks) (segments black).
Proof.
  apply (reverse_reference_interval strands_maf 1000 strands_blocks).
  - vm_compute. reflexivity.
  - reflexivity.
Defined.

(** C2, the claim as stated fails on a reference start that is no
    64-bit float: the file [rounded_end_maf] is accepted, its second block
    has the query forward, the reference reverse and the start
    9007199254740993, and the segment drawn for it ends at
    9007199254740992. *)
Example rounded_end_example :
  read_maf rounded_end_maf = Ok (Some 1000, rounded_end_blocks) /\
  dotplot_assembly rounded_end_maf
  = Ok [Glyph "black"
          [Seg 10 20 (Some 15) (Some 25);
           Seg 9007199254740988 40 (Some 9007199254740992) (Some 45)];
        Glyph "red" [Seg 30 950 (Some 34) (Some 946)]] /\
  (9007199254740992 =? 9007199254740993) = false.
Proof. repeat split; vm_compute; reflexivity. Qed.

(** C3, amended.  For every block of a file the build accepts
    whose query is on the reverse strand, with [L] the [read_length] of the
    file's [letters] comment, the segment drawn has its query start at [L]
    minus the query start that was read, and its query end at that mirrored
    start minus the query length, both computed in 64 bits: each is the
    exact difference when that difference fits in 64 bits. *)
Theorem reverse_query_mirror (text : string) (L : Z) (df_all : list row) :
  read_maf text = Ok (Some L, df_all) ->
  in_int64 L = true ->
  exists black red,
    dotplot_assembly text = Ok [black; red] /\
    line_color red = "red" /\
    Forall2 (fun b s =>
               y0 s = wrap64 (L - qstart b) /\
               y1 s = Some (wrap64 (y0 s - qlen b)) /\
               (- 2 ^ 63 <= L - qstart b < 2 ^ 63 -> y0 s = L - qstart b) /\
               (- 2 ^ 63 <= y0 s - qlen b < 2 ^ 63 ->
                y1 s = Some (y0 s - qlen b)))
            (reverse_blocks df_all) (segments red).
Proof.
  intros H HL. apply dotplot_assembly_segments in H; [|exact HL].
  eexists _, _. split; [exact H|]. split; [reflexivity|]. simpl.
  apply Forall2_map_r. intros b _. unfold reverse_segment. simpl.
  repeat split.
  - intros Hr. now apply wrap64_exact.
  - intros Hr. now rewrite wrap64_exact.
Qed.

Lemma reverse_query_mirror_witness :
  exists black red,
    dotplot_assembly strands_maf = Ok [black; red] /\
    line_color red = "red" /\
    Forall2 (fun b s =>
               y0 s = wrap64 (1000 - qstart b) /\
               y1 s = Some (wrap64 (y0 s - qlen b)) /\
               (- 2 ^ 63 <= 1000 - qstart b < 2 ^ 63 ->
                y0 s = 1000 - qstart b) /\
               (- 2 ^ 63 <= y0 s - qlen b < 2 ^ 63 ->
                y1 s = Some (y0 s - qlen b)))
            (reverse_blocks strands_blocks) (segments red).
Proof.
  apply (reverse_query_mirror strands_maf 1000 strands_blocks).
  - vm_compute. reflexivity.
  - reflexivity.
Defined.

(** C3, the claim as stated fails where the difference leaves the 64-bit
    range: the file [query_wrap_maf] is accepted with [read_length] 1000,
    its last block has the query reverse, the query start
    9223372036854775807 and the query length 2000; the segment drawn for it
    starts at 1000 - 9223372036854775807 = -9223372036854774807 and ends at
    9223372036854774809, not at -9223372036854774807 - 2000. *)
Example query_wrap_example :
  read_maf query_wrap_maf = Ok (Some 1000, query_wrap_blocks) /\
  dotplot_assembly query_wrap_maf
  = Ok [Glyph "black" [Seg 10 20 (Some 15) (Some 25)];
        Glyph "red"
          [Seg 30 950 (Some 34) (Some 946);
           Seg 60 (- 9223372036854774807) (Some 64)
               (Some 9223372036854774809)]] /\
  (9223372036854774809 =? - 9223372036854774807 - 2000) = false.
Proof. repeat split; vm_compute; reflexivity. Qed.

(** C4, amended.  For every block of a file the build accepts
    whose query is on the reverse strand, the segment drawn starts at the
    reference start that was read and ends at that start plus the reference
    length, computed in 64 bits (the exact sum when the sum fits in 64
    bits), whatever the reference strand of the block: a reverse reference
    is not corrected in this pass. *)
Theorem reverse_query_reference_end (text : string) (L : Z) (df_all : list row) :
  read_maf text = Ok (Some L, df_all) ->
  in_int64 L = true ->
  exists black red,
    dotplot_assembly text = Ok [black; red] /\
    line_color red = "red" /\
    Forall2 (fun b s =>
               x0 s = rstart b /\
               x1 s = Some (wrap64 (rstart b + rlen b)) /\
               (- 2 ^ 63 <= rstart b + rlen b < 2 ^ 63 ->
                x1 s = Some (rstart b + rlen b)))
            (reverse_blocks df_all) (segments red).
Proof.
  intros H HL. apply dotplot_assembly_segments in H; [|exact HL].
  eexists _, _. split; [exact H|]. split; [reflexivity|]. simpl.
  apply Forall2_map_r. intros b _. unfold reverse_segment. simpl.
  repeat split. intros Hr. now rewrite wrap64_exact.
Qed.

Lemma reverse_query_reference_end_witness :
  exists black red,
    dotplot_assembly strands_maf = Ok [black; red] /\
    line_color red = "red" /\
    Forall2 (fun b s =>
               x0 s = rstart b /\
               x1 s = Some (wrap64 (rstart b + rlen b)) /\
               (- 2 ^ 63 <= rstart b + rlen b < 2 ^ 63 ->
                x1 s = Some (rstart b + rlen b)))
            (reverse_blocks strands_blocks) (segments red).
Proof.
  apply (reverse_query_reference_end strands_maf 1000 strands_blocks).
  - vm_compute. reflexivity.
  - reflexivity.
Defined.

(** C4, the claim as stated fails where the sum leaves the 64-bit range:
    the file [reference_wrap_maf] is accepted, its last block has the query
    reverse, the reference start 9223372036854775807 and the reference
    length 1, and the segment drawn for it ends at -9223372036854775808. *)
Example reference_wrap_example :
  read_maf reference_wrap_maf = Ok (Some 1000, reference_wrap_blocks) /\
  dotplot_assembly reference_wrap_maf
  = Ok [Glyph "black" [Seg 10 20 (Some 15) (Some 25)];
        Glyph "red"
          [Seg 30 950 (Some 34) (Some 946);
           Seg 9223372036854775807 930 (Some (- 9223372036854775808))
               (Some 929)]] /\
  (- 9223372036854775808 =? 9223372036854775807 + 1) = false.
Proof. repeat split; vm_compute; reflexivity. Qed.

(** C5, the claim as stated fails.  The four texts taken from the sequence
    line [s ref 10 5 + 100 ACGTA] are the name, the start, the length and the
    strand; they are not the start, the length, the strand and the total
    length, and the frame reads the reference start from the second of
    them. *)
Lemma sequence_line_fields_example :
  fields sequence_line = ["ref"; "10"; "5"; "+"] /\
  fields sequence_line <> ["10"; "5"; "+"; "100"] /\
  read_maf one_block_maf
  = Ok (Some 1000,
        [Row (Some "ref") 10 5 (Some "+") (Some "qry") 20 5 (Some "+")
             None None]).
Proof.
  split; [|split].
  - vm_compute. reflexivity.
  - vm_compute. discriminate.
  - vm_compute. reflexivity.
Qed.

(** The texts a line gives are those at its positions 2 to 5, counted from 1
    between white space, as far as the line has them. *)
Lemma fields_positions (line : string) (i : nat) :
  (i < 4)%nat -> nth_error (fields line) i = nth_error (Py.split line) (S i).
Proof.
  intros Hi. unfold fields, Py.slice. change (5 - 1)%nat with 4%nat.
  rewrite nth_error_firstn, nth_error_skipn.
  destruct (Nat.ltb_spec i 4); [reflexivity | lia].
Qed.

Lemma fields_length (line : string) : (List.length (fields line) <= 4)%nat.
Proof.
  unfold fields, Py.slice. change (5 - 1)%nat with 4%nat.
  rewrite length_firstn. lia.
Qed.

Lemma iteration_block (a : string) (rest : file) (v : locals) :
  Py.startswith a "#" = false -> Py.startswith a "a" = true ->
  iteration (a :: rest) v
  = Continue (advance (advance (advance rest)))
      (Locals (read_length v)
         (records v ++ [fields (readline rest)
                        ++ fields (readline (advance rest))])%list).
Proof.
  intros Hc Ha. simpl. unfold loop_body. rewrite Hc, Ha. reflexivity.
Qed.

(** The row of a record of eight texts. *)
Lemma row_of_eight (n1 a1 b1 o1 n2 a2 b2 o2 : string) (rs rn qs qn : Z)
    (b : row) :
  to_int (Some a1) = Ok rs -> to_int (Some b1) = Ok rn ->
  to_int (Some a2) = Ok qs -> to_int (Some b2) = Ok qn ->
  row_of [n1; a1; b1; o1; n2; a2; b2; o2] b ->
  b = Row (Some n1) rs rn (Some o1) (Some n2) qs qn (Some o2) None None.
Proof.
  intros Hrs Hrn Hqs Hqn (H0 & H1 & H2 & H3 & H4 & H5 & H6 & H7 & H8 & H9).
  cbn [nth_error] in H0, H1, H2, H3, H4, H5, H6, H7.
  rewrite Hrs in H1. rewrite Hrn in H2. rewrite Hqs in H5. rewrite Hqn in H6.
  destruct b; simpl in *. congruence.
Qed.

(** A reference line of three tokens: the block's record has seven texts,
    the name of the query goes to [rorient], its start to [query], and the
    file is accepted. *)
Example short_reference_example :
  fields (nth 6 (open short_reference_maf) "") = ["ref"; "30"; "4"] /\
  fields (nth 7 (open short_reference_maf) "") = ["qry"; "50"; "6"; "7"] /\
  read_maf short_reference_maf
  = Ok (Some 1000,
        [Row (Some "ref") 10 5 (Some "+") (Some "qry") 20 5 (Some "+")
             None None;
         Row (Some "ref") 30 4 (Some "qry") (Some "50") 6 7 None None None]).
Proof. repeat split; vm_compute; reflexivity. Qed.

(** C5, amended.  From a sequence line the parser takes the texts at the
    positions 2 to 5, counted from 1 between white space, as far as the line
    has them, so never the text at position 6, the total length.  The record
    of a block is the texts taken from its reference line followed by those
    taken from its query line, and the texts of a record go in this order to
    the columns [ref], [rstart], [rlen], [rorient], [query], [qstart],
    [qlen], [qorient].  So in a block both of whose sequence lines have at
    least five texts, the four texts taken from each line are the name of
    the sequence, its start, its length and its strand: those of the
    reference line go to [ref], [rstart], [rlen] and [rorient], those of the
    query line to [query], [qstart], [qlen] and [qorient], the starts and
    the lengths as integers of 64 bits. *)
Theorem sequence_line_fields
    (l1 l2 t1 n1 a1 b1 o1 t2 n2 a2 b2 o2 : string) (more1 more2 : list string)
    (rs rn qs qn : Z) (rl : option Z) :
  Py.split l1 = t1 :: n1 :: a1 :: b1 :: o1 :: more1 ->
  Py.split l2 = t2 :: n2 :: a2 :: b2 :: o2 :: more2 ->
  to_int (Some a1) = Ok rs -> to_int (Some b1) = Ok rn ->
  to_int (Some a2) = Ok qs -> to_int (Some b2) = Ok qn ->
  (forall line i,
      (i < 4)%nat ->
      nth_error (fields line) i = nth_error (Py.split line) (S i)) /\
  (forall line, (List.length (fields line) <= 4)%nat) /\
  (forall a rest v,
      Py.startswith a "#" = false -> Py.startswith a "a" = true ->
      iteration (a :: rest) v
      = Continue (advance (advance (advance rest)))
          (Locals (read_length v)
             (records v ++ [fields (readline rest)
                            ++ fields (readline (advance rest))])%list)) /\
  (forall v df_all,
      frame v = Ok df_all -> Forall2 row_of (records v) df_all) /\
  fields l1 = [n1; a1; b1; o1] /\
  fields l2 = [n2; a2; b2; o2] /\
  frame (Locals rl [fields l1 ++ fields l2]%list)
  = Ok [Row (Some n1) rs rn (Some o1) (Some n2) qs qn (Some o2) None None] /\
  (forall v df_all,
      frame v = Ok df_all ->
      In (fields l1 ++ fields l2)%list (records v) ->
      In (Row (Some n1) rs rn (Some o1) (Some n2) qs qn (Some o2) None None)
         df_all).
Proof.
  intros H1 H2 Hrs Hrn Hqs Hqn.
  assert (F1 : fields l1 = [n1; a1; b1; o1])
    by (unfold fields, Py.slice; rewrite H1; reflexivity).
  assert (F2 : fields l2 = [n2; a2; b2; o2])
    by (unfold fields, Py.slice; rewrite H2; reflexivity).
  split; [exact fields_positions|]. split; [exact fields_length|].
  split; [exact iteration_block|]. split; [exact frame_rows|].
  rewrite F1, F2. split; [reflexivity|]. split; [reflexivity|]. split.
  - apply to_int_Some in Hrs as (Hrs & Rrs), Hrn as (Hrn & Rrn).
    apply to_int_Some in Hqs as (Hqs & Rqs), Hqn as (Hqn & Rqn).
    unfold frame, astype. simpl. unfold column. simpl.
    rewrite Hrs; simpl; rewrite Rrs; simpl.
    rewrite Hrn; simpl; rewrite Rrn; simpl.
    rewrite Hqs; simpl; rewrite Rqs; simpl.
    rewrite Hqn; simpl; rewrite Rqn; simpl. reflexivity.
  - intros v df_all Hdf Hin. apply frame_rows in Hdf.
    destruct (Forall2_In_l _ _ _ _ Hdf Hin) as (b & Hb & Hrow).
    simpl app in Hrow.
    now rewrite <- (row_of_eight _ _ _ _ _ _ _ _ _ _ _ _ _ Hrs Hrn Hqs Hqn Hrow).
Qed.

Lemma sequence_line_fields_witness :
  (forall line i,
      (i < 4)%nat ->
      nth_error (fields line) i = nth_error (Py.split line) (S i)) /\
  (forall line, (List.length (fields line) <= 4)%nat) /\
  (forall a rest v,
      Py.startswith a "#" = false -> Py.startswith a "a" = true ->
      iteration (a :: rest) v
      = Continue (advance (advance (advance rest)))
          (Locals (read_length v)
             (records v ++ [fields (readline rest)
                            ++ fields (readline (advance rest))])%list)) /\
  (forall v df_all,
      frame v = Ok df_all -> Forall2 row_of (records v) df_all) /\
  fields sequence_line = ["ref"; "10"; "5"; "+"] /\
  fields ("s qry 20 5 - 1000 ACGTA" ++ LF) = ["qry"; "20"; "5"; "-"] /\
  frame (Locals None [fields sequence_line
                      ++ fields ("s qry 20 5 - 1000 ACGTA" ++ LF)]%list)
  = Ok [Row (Some "ref") 10 5 (Some "+") (Some "qry") 20 5 (Some "-")
            None None] /\
  (forall v df_all,
      frame v = Ok df_all ->
      In (fields sequence_line
          ++ fields ("s qry 20 5 - 1000 ACGTA" ++ LF))%list (records v) ->
      In (Row (Some "ref") 10 5 (Some "+") (Some "qry") 20 5 (Some "-")
              None None)
         df_all).
Proof.
  apply (sequence_line_fields sequence_line ("s qry 20 5 - 1000 ACGTA" ++ LF)
           "s" "ref" "10" "5" "+" "s" "qry" "20" "5" "-"
           ["100"; "ACGTA"] ["1000"; "ACGTA"]);
    vm_compute; reflexivity.
Defined.


Lemma finish_Raise (e : exn) : finish (Raise e) = Raise e.
Proof. reflexivity. Qed.

(** A frame is made only of records whose start and length columns are
    integers. *)
Lemma frame_is_int (v : locals) (df_all : list row) (record : list string) :
  frame v = Ok df_all -> In record (records v) ->
  is_int (nth_error record 1) = true /\ is_int (nth_error record 2) = true /\
  is_int (nth_error record 5) = true /\ is_int (nth_error record 6) = true.
Proof.
  intros Hdf Hin. apply frame_rows in Hdf.
  destruct (Forall2_In_l _ _ _ _ Hdf Hin) as (b & _ & Hb).
  destruct Hb as (_ & H1 & H2 & _ & _ & H5 & H6 & _).
  unfold is_int. now rewrite H1, H2, H5, H6.
Qed.



(** The exception of [bad_start_maf] is the [ValueError] of the conversion
    of the column [qstart]; a start beyond 64 bits gives an
    [OverflowError]. *)
Example bad_start_example :
  dotplot_assembly bad_start_maf = Raise ValueError /\
  dotplot_assembly
    (unlines ["# letters=1000";
              "a score=10";
              "s ref 10 5 + 100 ACGTA";
              "s qry 9223372036854775808 5 + 1000 ACGTA";
              ""])
  = Raise OverflowError.
Proof. split; vm_compute; reflexivity. Qed.

(** ** Comments *)

Lemma split_at_absent (sep s cur : string) :
  Py.contains sep s = false ->
  exists piece, Py.split_at sep O cur s = [piece].
Proof.
  revert cur. induction s as [|c s IH]; intros cur H; simpl in *.
  - eauto.
  - apply orb_false_iff in H as [Hhere Hlater].
    unfold Py.startswith in *. simpl. rewrite Hhere. now apply IH.
Qed.

Lemma split_sep_absent (line sep : string) :
  Py.contains sep line = false -> nth_error (Py.split_sep line sep) 1 = None.
Proof.
  intros H. unfold Py.split_sep.
  destruct (split_at_absent sep line "" H) as (piece & ->). reflexivity.
Qed.

Lemma prefix_app_l (p q s : string) :
  String.prefix (p ++ q) s = true -> String.prefix p s = true.
Proof.
  revert s. induction p as [|c p IH]; intros s; simpl; [now destruct s|].
  destruct s as [|d s]; [discriminate|]. simpl.
  destruct (Ascii.ascii_dec c d); [apply IH | discriminate].
Qed.

Lemma contains_app_l (p q s : string) :
  Py.contains (p ++ q) s = true -> Py.contains p s = true.
Proof.
  induction s as [|c s IH]; intros H; cbn [Py.contains] in *;
    unfold Py.startswith in *;
    apply orb_true_iff in H as [H|H]; apply orb_true_iff.
  - left. now apply prefix_app_l in H.
  - discriminate.
  - left. now apply prefix_app_l in H.
  - right. now apply IH.
Qed.

Lemma no_letters_advance (maf : file) :
  no_letters maf = true -> no_letters (advance maf) = true.
Proof.
  destruct maf as [|line maf]; simpl; [auto|].
  intros H. now apply andb_true_iff in H.
Qed.

(** Without a [letters=] in a comment, no iteration binds [read_length]. *)
Lemma iteration_no_letters (maf : file) (v : locals) (maf' : file) (v' : locals) :
  no_letters maf = true /\ read_length v = None ->
  iteration maf v = Continue maf' v' ->
  no_letters maf' = true /\ read_length v' = None.
Proof.
  intros [Hmaf Hv] Hit. destruct maf as [|line rest]; [discriminate|].
  simpl in Hmaf. apply andb_true_iff in Hmaf as [Hline Hrest].
  simpl in Hit. unfold loop_body in Hit.
  destruct (Py.startswith line "#") eqn:Hc.
  - simpl in Hline. apply negb_true_iff in Hline.
    destruct (Py.contains "letters" line).
    + rewrite (split_sep_absent _ _ Hline) in Hit. discriminate.
    + injection Hit as <- <-. auto.
  - destruct (Py.startswith line "a").
    + injection Hit as <- <-. simpl.
      auto using no_letters_advance.
    + destruct (line =? "")%string; discriminate.
Qed.

(** C7, the claim as stated fails.  [blank_line_maf] has no [letters=]
    comment and a block whose query is on the reverse strand; the build
    raises the parser's [IOError] at the blank line after the header, not
    [UnboundLocalError]. *)
Lemma blank_line_example :
  no_letters (open blank_line_maf) = true /\
  dotplot_assembly blank_line_maf
  = Raise (IOError "Cannot read alignment file").
Proof. split; vm_compute; reflexivity. Qed.

(** C7, amended.  For every file none of whose comment lines holds
    [letters=], the build raises an exception; when the parser and the
    conversion of the columns to integers accept the file, the exception is
    [UnboundLocalError], whatever the strands of the blocks, also with forward
    blocks only or with no block at all.  Otherwise it is the exception of
    the parser or of the table. *)
Theorem missing_letters_fails (text : string) :
  no_letters (open text) = true ->
  exists e, dotplot_assembly text = Raise e /\
            forall rl df_all, read_maf text = Ok (rl, df_all) ->
                              rl = None /\ e = UnboundLocalError.
Proof.
  intros Hno. unfold dotplot_assembly, read_maf.
  destruct (maf_loop (open text) entry) as [v|e] eqn:Hloop.
  - destruct (maf_loop_invariant
                (fun maf w => no_letters maf = true /\ read_length w = None)
                iteration_no_letters (open text) entry v (conj Hno eq_refl)
                Hloop) as (_ & [_ Hv] & _).
    unfold finish. cbn [bind].
    destruct (frame v) as [df_all|e] eqn:Hdf; cbn [bind].
    + rewrite draw_rows, Hv. cbn [load bind]. exists UnboundLocalError.
      split; [reflexivity|]. intros rl df [= <- <-]. auto.
    + exists e. split; [reflexivity|]. discriminate.
  - exists e. split; [reflexivity|]. discriminate.
Qed.

Lemma missing_letters_fails_witness :
  exists e, dotplot_assembly forward_only_maf = Raise e /\
            forall rl df_all, read_maf forward_only_maf = Ok (rl, df_all) ->
                              rl = None /\ e = UnboundLocalError.
Proof.
  apply (missing_letters_fails forward_only_maf). vm_compute. reflexivity.
Defined.

(** C8, the claim as stated fails.  A comment in which other text follows
    the integer of [letters=] makes the build raise [ValueError], and a
    comment that holds the word [letters] without [letters=] makes it raise
    [IndexError]: the first is not stored and the second is not ignored. *)
Lemma letters_comment_example :
  Py.contains "letters=" (readline (open letters_then_text_maf)) = true /\
  dotplot_assembly letters_then_text_maf = Raise ValueError /\
  Py.contains "letters=" (readline (open letters_without_value_maf)) = false /\
  dotplot_assembly letters_without_value_maf = Raise IndexError.
Proof. repeat split; vm_compute; reflexivity. Qed.

(** C8, amended.  For every line beginning with [#] that the loop reads: when
    the line holds [letters=] and the text between its first [letters=] and
    the next one, or the end of the line, is an integer with nothing but
    white space around it, that integer becomes [read_length], whatever
    [read_length] was before, so that the last such line of a file wins; when
    that text is no integer, the build raises [ValueError]; when the line does
    not hold the word [letters], it is ignored.  Where nothing is raised the
    loop goes on with the next line and with the same records. *)
Theorem comment_line (line : string) (rest : file) (v : locals) :
  Py.startswith line "#" = true ->
  (forall tail n,
      nth_error (Py.split_sep line "letters=") 1 = Some tail ->
      Py.int tail = Ok n ->
      iteration (line :: rest) v = Continue rest (Locals (Some n) (records v)))
  /\ (forall tail e,
      nth_error (Py.split_sep line "letters=") 1 = Some tail ->
      Py.int tail = Raise e ->
      iteration (line :: rest) v = Raised ValueError)
  /\ (Py.contains "letters" line = false ->
      iteration (line :: rest) v = Continue rest v).
Proof.
  intros Hc.
  assert (Hword : forall tail,
             nth_error (Py.split_sep line "letters=") 1 = Some tail ->
             Py.contains "letters" line = true).
  { intros tail Htail.
    destruct (Py.contains "letters" line) eqn:Hword; [reflexivity|].
    assert (Hno : Py.contains "letters=" line = false).
    { destruct (Py.contains "letters=" line) eqn:H; [|reflexivity].
      apply (contains_app_l "letters" "=") in H. congruence. }
    rewrite (split_sep_absent _ _ Hno) in Htail. discriminate. }
  repeat split.
  - intros tail n Htail Hn. simpl. unfold loop_body.
    now rewrite Hc, (Hword _ Htail), Htail, Hn.
  - intros tail e Htail He. simpl. unfold loop_body.
    rewrite Hc, (Hword _ Htail), Htail, He.
    unfold Py.int in He. destruct (Py.signed (Py.strip tail)); congruence.
  - intros Hno. simpl. unfold loop_body. now rewrite Hc, Hno.
Qed.

Lemma comment_line_witness :
  iteration (open comments_maf) (Locals (Some 5) [])
  = Continue (advance (open comments_maf)) (Locals (Some 7000) []) /\
  iteration (advance (open comments_maf)) (Locals (Some 7000) [])
  = Continue (advance (advance (open comments_maf))) (Locals (Some 7000) []).
Proof.
  split.
  - apply (proj1 (comment_line (readline (open comments_maf))
                    (advance (open comments_maf)) (Locals (Some 5) [])
                    eq_refl) ("7000" ++ LF)%string 7000);
      vm_compute; reflexivity.
  - apply (proj2 (proj2 (comment_line (readline (advance (open comments_maf)))
                           (advance (advance (open comments_maf)))
                           (Locals (Some 7000) []) eq_refl))).
    vm_compute. reflexivity.
Defined.

(** The three comments of [comments_maf]: the second is ignored, the
    [letters=] of the third replaces that of the first. *)
Example comments_example : read_maf comments_maf = Ok (Some 1000, []).
Proof. vm_compute. reflexivity. Qed.

(** ** Lines the loop does not recognise, and lines it does not look at *)

(** C9, the claim as stated fails.  The message of the [IOError] raised for
    a line that is neither a comment nor the start of a block is
    [Cannot read alignment file], with a capital letter; it is not the text
    [cannot read alignment file] of the claim. *)
Lemma stray_line_example :
  dotplot_assembly stray_line_maf
  = Raise (IOError "Cannot read alignment file") /\
  ("Cannot read alignment file" =? "cannot read alignment file")%string = false.
Proof. split; vm_compute; reflexivity. Qed.

(** C9, amended.  For every line the loop reads that begins neither with [#]
    nor with [a]: when it is the empty text that [readline] returns at the
    end of the file, the loop ends and returns its locals; otherwise the
    build raises [IOError] with the message [Cannot read alignment file]. *)
Theorem unrecognised_line (text : string) (maf : file) (v : locals) :
  reads (open text) entry maf v ->
  Py.startswith (readline maf) "#" = false ->
  Py.startswith (readline maf) "a" = false ->
  ((readline maf =? "")%string = true -> maf_loop (open text) entry = Ok v) /\
  ((readline maf =? "")%string = false ->
   dotplot_assembly text = Raise (IOError "Cannot read alignment file")).
Proof.
  intros Hreads Hc Ha.
  rewrite (reads_dotplot_assembly _ _ _ Hreads), (reads_maf_loop _ _ _ _ Hreads).
  destruct maf as [|line rest]; simpl in *.
  - split; [reflexivity | discriminate].
  - unfold loop_body. rewrite Hc, Ha.
    destruct (line =? "")%string; split; try discriminate; reflexivity.
Qed.

Lemma unrecognised_line_witness :
  maf_loop (open comments_maf) entry = Ok (Locals (Some 1000) []) /\
  dotplot_assembly stray_line_maf
  = Raise (IOError "Cannot read alignment file").
Proof.
  split.
  - apply (proj1 (unrecognised_line comments_maf [] (Locals (Some 1000) [])
                    ltac:(repeat (eapply reads_next; [vm_compute; reflexivity|]);
                          apply reads_here)
                    eq_refl eq_refl)).
    reflexivity.
  - apply (proj2 (unrecognised_line stray_line_maf
                    (advance (open stray_line_maf)) (Locals (Some 1000) [])
                    ltac:(eapply reads_next; [vm_compute; reflexivity|];
                          apply reads_here)
                    eq_refl eq_refl)).
    reflexivity.
Defined.

Lemma reads_length (maf maf' : file) (v v' : locals) :
  reads maf v maf' v' -> (List.length maf' <= List.length maf)%nat.
Proof.
  induction 1 as [|maf v maf1 v1 maf' v' Hit _ IH]; [lia|].
  apply iteration_shorter in Hit. lia.
Qed.

(** The loop reads a prefix of the file without looking past it: when it
    comes to the head of an iteration exactly at the end of [pre], it does so
    whatever follows [pre]. *)
Lemma reads_replace (pre t1 t2 : file) (v0 v : locals) :
  t1 <> [] -> t2 <> [] ->
  reads (pre ++ t1)%list v0 t1 v -> reads (pre ++ t2)%list v0 t2 v.
Proof.
  intros Ht1 Ht2. remember (List.length pre) as n eqn:Hn.
  revert pre Hn v0. induction n as [n IH] using lt_wf_ind.
  intros pre -> v0 Hreads.
  inversion Hreads as [maf w Hmaf Hw Hpre Hv
                      | maf w maf1 v1 maf' v' Hit Hrest Hmaf Hw Hmaf' Hv'].
  - assert (pre = []) as ->.
    { apply (f_equal (@List.length string)) in Hpre.
      rewrite length_app in Hpre. destruct pre; [reflexivity|simpl in Hpre; lia]. }
    apply reads_here.
  - pose proof (reads_length _ _ _ _ Hrest) as Hlen.
    destruct pre as [|line pre].
    { apply iteration_shorter in Hit. simpl in *. lia. }
    simpl in Hit. unfold loop_body in Hit.
    destruct (Py.startswith line "#") eqn:Hc.
    + assert (Hstep : forall u, iteration (line :: pre ++ t1)%list v0
                                = Continue (pre ++ t1)%list u ->
                                iteration (line :: pre ++ t2)%list v0
                                = Continue (pre ++ t2)%list u).
      { intros u. simpl. unfold loop_body. rewrite Hc.
        destruct (Py.contains "letters" line).
        - destruct (nth_error (Py.split_sep line "letters=") 1);
            [|discriminate].
          destruct (Py.int s); [|discriminate]. now intros [= <-].
        - now intros [= <-]. }
      assert (Hmaf1 : maf1 = (pre ++ t1)%list).
      { destruct (Py.contains "letters" line).
        - destruct (nth_error (Py.split_sep line "letters=") 1);
            [|discriminate].
          destruct (Py.int s); [|discriminate]. now injection Hit.
        - now injection Hit. }
      subst maf1. eapply reads_next.
      * apply Hstep. simpl. unfold loop_body. rewrite Hc. exact Hit.
      * eapply (IH (List.length pre)); simpl; eauto.
    + destruct (Py.startswith line "a") eqn:Ha.
      * injection Hit as <- <-.
        destruct pre as [|x [|y [|z pre]]].
        -- exfalso. destruct t1 as [|h t1]; [congruence|]. simpl in Hlen.
           pose proof (advance_length t1).
           pose proof (advance_length (advance t1)). lia.
        -- exfalso. destruct t1 as [|h t1]; [congruence|]. simpl in Hlen.
           pose proof (advance_length t1). lia.
        -- exfalso. destruct t1 as [|h t1]; [congruence|]. simpl in Hlen. lia.
        -- eapply reads_next.
           ++ simpl. unfold loop_body. rewrite Hc, Ha. simpl. reflexivity.
           ++ eapply (IH (List.length pre)); simpl; eauto; lia.
      * destruct (line =? "")%string; discriminate.
Qed.

(** C10.  The fourth line of a block, the one after the [a] line and the two
    sequence lines, is read and dropped: the iteration raises nothing for it
    and goes on after it with the record of the two sequence lines, it does
    the same whatever text stands in its place, and two files that differ in
    that line only are built alike, also when the line is a [letters]
    comment or the [a] line of another block. *)
Theorem separator_line_discarded (text text' : string) (pre : file)
    (a l1 l2 sep sep' : string) (rest : file) (v : locals) :
  open text = (pre ++ a :: l1 :: l2 :: sep :: rest)%list ->
  open text' = (pre ++ a :: l1 :: l2 :: sep' :: rest)%list ->
  reads (open text) entry (a :: l1 :: l2 :: sep :: rest) v ->
  Py.startswith a "#" = false -> Py.startswith a "a" = true ->
  iteration (a :: l1 :: l2 :: sep :: rest) v
  = Continue rest
      (Locals (read_length v) (records v ++ [fields l1 ++ fields l2])%list) /\
  iteration (a :: l1 :: l2 :: sep' :: rest) v
  = iteration (a :: l1 :: l2 :: sep :: rest) v /\
  dotplot_assembly text' = dotplot_assembly text.
Proof.
  intros Htext Htext' Hreads Hc Ha.
  assert (Hany : forall other,
             iteration (a :: l1 :: l2 :: other :: rest) v
             = Continue rest
                 (Locals (read_length v)
                    (records v ++ [fields l1 ++ fields l2])%list))
    by (intros other;
        exact (iteration_block a (l1 :: l2 :: other :: rest) v Hc Ha)).
  pose proof (Hany sep) as Hsep. pose proof (Hany sep') as Hsep'.
  repeat split.
  - exact Hsep.
  - now rewrite Hsep, Hsep'.
  - assert (Hreads' : reads (open text') entry (a :: l1 :: l2 :: sep' :: rest) v).
    { rewrite Htext'. rewrite Htext in Hreads.
      eapply reads_replace; [| |exact Hreads]; discriminate. }
    rewrite (reads_dotplot_assembly _ _ _ Hreads).
    rewrite (reads_dotplot_assembly _ _ _ Hreads').
    now rewrite !maf_loop_iteration, Hsep, Hsep'.
Qed.

Lemma separator_line_discarded_witness :
  iteration (skipn 1 (open separator_comment_maf)) (Locals (Some 1000) [])
  = Continue (skipn 5 (open separator_comment_maf))
      (Locals (Some 1000) [["ref"; "10"; "5"; "+"; "qry"; "20"; "5"; "-"]]) /\
  iteration (skipn 1 (open separator_text_maf)) (Locals (Some 1000) [])
  = iteration (skipn 1 (open separator_comment_maf)) (Locals (Some 1000) []) /\
  dotplot_assembly separator_text_maf = dotplot_assembly separator_comment_maf.
Proof.
  exact (separator_line_discarded separator_comment_maf separator_text_maf
           (firstn 1 (open separator_comment_maf))
           ("a score=10" ++ LF) ("s ref 10 5 + 100 ACGTA" ++ LF)
           ("s qry 20 5 - 1000 ACGTA" ++ LF) ("# letters=5" ++ LF)
           ("no separator at all" ++ LF)
           (skipn 5 (open separator_comment_maf)) (Locals (Some 1000) [])
           eq_refl eq_refl
           ltac:(eapply reads_next; [vm_compute; reflexivity | apply reads_here])
           eq_refl eq_refl).
Defined.

(** * Properties of the other functions *)

(** ** [insert_len] *)

(** X1.  On a circle of [length] positions, for a start and an end among the
    positions [0 .. length - 1], [insert_len] is the distance from the start
    forward to the end: the difference of the two modulo [length]. *)
Theorem insert_len_mod (start end_ length : Z) :
  0 <= start < length -> 0 <= end_ < length ->
  insert_len start end_ length = (end_ - start) mod length.
Proof.
  intros Hs He. unfold insert_len.
  destruct (Z.geb_spec end_ start) as [Hge|Hlt].
  - symmetry. apply Z.mod_small. lia.
  - apply (Z.mod_unique _ _ (-1)); lia.
Qed.

Lemma insert_len_mod_witness : insert_len 90 10 100 = (10 - 90) mod 100.
Proof. apply insert_len_mod; lia. Defined.

(** X2.  Going from one position to a different one and back again goes once
    round the circle: the two lengths add up to [length], whatever the
    three integers are. *)
Theorem insert_len_round (start end_ length : Z) :
  start <> end_ ->
  insert_len start end_ length + insert_len end_ start length = length.
Proof.
  intros Hne. unfold insert_len.
  destruct (Z.geb_spec end_ start), (Z.geb_spec start end_); lia.
Qed.

Lemma insert_len_round_witness :
  insert_len 90 10 100 + insert_len 10 90 100 = 100.
Proof. apply insert_len_round. lia. Defined.

(** X3.  For a start and an end between 0 and [length], both bounds
    included, the result lies between 0 and [length]. *)
Theorem insert_len_bounds (start end_ length : Z) :
  0 <= start <= length -> 0 <= end_ <= length ->
  0 <= insert_len start end_ length <= length.
Proof.
  intros Hs He. unfold insert_len.
  destruct (Z.geb_spec end_ start); lia.
Qed.

Lemma insert_len_bounds_witness : 0 <= insert_len 0 100 100 <= 100.
Proof. apply insert_len_bounds; lia. Defined.

(** ** Lists and dictionaries *)

Lemma list_remove_without_first (x : string) (l : list string) :
  list_in x l = true -> list_remove x l = Ok (without_first x l).
Proof.
  induction l as [|y l IH]; simpl; [discriminate|].
  destruct (y =? x)%string; simpl; [reflexivity|].
  intros H. now rewrite (IH H).
Qed.

Lemma list_in_without_first (x y : string) (l : list string) :
  x <> y -> list_in y (without_first x l) = list_in y l.
Proof.
  intros Hxy. induction l as [|z l IH]; simpl; [reflexivity|].
  destruct (z =? x)%string eqn:Ezx; simpl.
  - apply String.eqb_eq in Ezx. subst z.
    destruct (x =? y)%string eqn:Exy; [|reflexivity].
    apply String.eqb_eq in Exy. contradiction.
  - now rewrite IH.
Qed.

Section DictProperties.

Context {K V : Type} (eqb : K -> K -> bool).
Hypothesis eqb_eq : forall a b, eqb a b = true <-> a = b.

Lemma eqb_same (a : K) : eqb a a = true.
Proof. now apply eqb_eq. Qed.

Lemma existsb_eqb_In (x : K) (l : list K) :
  existsb (fun y => eqb y x) l = true <-> In x l.
Proof.
  rewrite existsb_exists. split.
  - intros (y & Hy & E). apply eqb_eq in E. now subst.
  - intros H. exists x. split; [assumption | apply eqb_same].
Qed.

Lemma unique_In (x : K) (l : list K) : In x (unique eqb l) <-> In x l.
Proof.
  induction l as [|y l IH]; simpl; [tauto|].
  rewrite filter_In, IH. split.
  - tauto.
  - intros [->|H]; [tauto|].
    destruct (eqb y x) eqn:E; [apply eqb_eq in E; tauto|]. right. tauto.
Qed.

Lemma unique_NoDup (l : list K) : NoDup (unique eqb l).
Proof.
  induction l as [|y l IH]; simpl; constructor.
  - rewrite filter_In. intros [_ H]. now rewrite eqb_same in H.
  - now apply NoDup_filter.
Qed.

Lemma unique_snoc (l : list K) (x : K) :
  unique eqb (l ++ [x])
  = if existsb (fun y => eqb y x) l then unique eqb l
    else (unique eqb l ++ [x])%list.
Proof.
  induction l as [|y l IH]; simpl; [reflexivity|].
  rewrite IH. destruct (eqb y x) eqn:E; simpl.
  - apply eqb_eq in E. subst y.
    destruct (existsb (fun y => eqb y x) l); [reflexivity|].
    rewrite filter_app. simpl. rewrite eqb_same. simpl.
    now rewrite app_nil_r.
  - destruct (existsb (fun y => eqb y x) l); [reflexivity|].
    rewrite filter_app. simpl. rewrite E. reflexivity.
Qed.

Lemma dict_set_known (f : K -> V) (l : list K) (k : K) :
  dict_set eqb k (f k) (map (fun n => (n, f n)) l)
  = if existsb (fun y => eqb y k) l then map (fun n => (n, f n)) l
    else map (fun n => (n, f n)) (l ++ [k]).
Proof.
  induction l as [|y l IH]; simpl; [reflexivity|].
  destruct (eqb y k) eqn:E; simpl.
  - apply eqb_eq in E. now subst.
  - rewrite IH. now destruct (existsb (fun y => eqb y k) l).
Qed.

(** A dictionary filled key by key from a list has the distinct values of
    the list as its keys, in the order of their first appearance. *)
Lemma fold_dict_set (f : K -> V) (l ks : list K) :
  fold_left (fun d n => dict_set eqb n (f n) d) l
            (map (fun n => (n, f n)) (unique eqb ks))
  = map (fun n => (n, f n)) (unique eqb (ks ++ l)).
Proof.
  revert ks. induction l as [|x l IH]; intros ks; simpl.
  - now rewrite app_nil_r.
  - rewrite dict_set_known.
    replace (ks ++ x :: l)%list with ((ks ++ [x]) ++ l)%list
      by (now rewrite <- app_assoc).
    rewrite <- IH, unique_snoc.
    assert (E : existsb (fun y => eqb y x) (unique eqb ks)
                = existsb (fun y => eqb y x) ks).
    { apply eq_true_iff_eq. rewrite !existsb_eqb_In. apply unique_In. }
    rewrite E. now destruct (existsb (fun y => eqb y x) ks).
Qed.

Lemma dict_get_map (f : K -> V) (l : list K) (k : K) :
  dict_get eqb k (map (fun n => (n, f n)) l)
  = if existsb (fun y => eqb y k) l then Some (f k) else None.
Proof.
  induction l as [|y l IH]; simpl; [reflexivity|].
  destruct (eqb y k) eqn:E; simpl; [|exact IH].
  apply eqb_eq in E. now subst.
Qed.

End DictProperties.

(** ** [create_fastcat_dic] *)

Lemma item_index_from (P : string -> bool) (l : list string) (k : nat) :
  match map fst (filter (fun p => P (snd p)) (combine (seq k (List.length l)) l))
  with
  | i :: _ => (k <= i)%nat /\ exists name, find P l = Some name /\
                                          nth_error l (i - k) = Some name
  | [] => find P l = None
  end.
Proof.
  revert k. induction l as [|x l IH]; intros k; simpl; [reflexivity|].
  destruct (P x) eqn:Hx; simpl.
  - split; [lia|]. exists x. rewrite Nat.sub_diag. auto.
  - specialize (IH (S k)).
    destruct (map fst _) as [|i rest]; [exact IH|].
    destruct IH as (Hle & name & Hfind & Hnth). split; [lia|].
    exists name. split; [assumption|].
    replace (i - k)%nat with (S (i - S k)) by lia. exact Hnth.
Qed.

(** The index list and the subscript of lines 111-114 take the first file
    name that holds the text, and nothing is raised. *)
Lemma add_item_Ok (item_search : string) (new_dic : dict string string)
    (item : string * list string) :
  add_item item_search new_dic item
  = Ok match first_match item_search (snd item) with
       | Some name => dict_set String.eqb (fst item) name new_dic
       | None => new_dic
       end.
Proof.
  unfold add_item, item_index, enumerate, first_match.
  pose proof (item_index_from (fun name => Py.contains item_search name)
                (snd item) 0) as H.
  cbv beta in H. destruct (map fst _) as [|i rest].
  - now rewrite H.
  - destruct H as (_ & name & -> & Hnth).
    rewrite Nat.sub_0_r in Hnth. now rewrite Hnth.
Qed.

Lemma new_dic_Ok (item_search : string) (r h d : list string) :
  foldM (add_item item_search)
        [("Raw", r); ("Hostfilt", h); ("Downsampled", d)] []
  = Ok (sample_files item_search
          [("Raw", r); ("Hostfilt", h); ("Downsampled", d)]).
Proof.
  unfold sample_files. simpl. rewrite !add_item_Ok. simpl.
  destruct (first_match item_search r); simpl; rewrite add_item_Ok; simpl;
    destruct (first_match item_search h); simpl; rewrite add_item_Ok; simpl;
    destruct (first_match item_search d); reflexivity.
Qed.

Lemma drop_optional_Ok (optional : string) (files : list_ref) (s : store) :
  drop_optional optional files s
  = Ok (if list_in optional (s files) then Empty else Caller files,
        after_optional optional files s).
Proof.
  unfold drop_optional, after_optional.
  destruct (list_in optional (s files)) eqn:Hin; [|reflexivity].
  now rewrite (list_remove_without_first _ _ Hin).
Qed.

Lemma after_optional_elsewhere (optional : string) (files r : list_ref)
    (s : store) :
  r <> files -> after_optional optional files s r = s r.
Proof.
  intros Hr. unfold after_optional, store_set.
  destruct (list_in optional (s files)); [|reflexivity].
  destruct (Nat.eqb_spec r files); [contradiction | reflexivity].
Qed.

Lemma without_first_absent (x : string) (l : list string) :
  list_in x l = false -> without_first x l = l.
Proof.
  induction l as [|y l IH]; simpl; [reflexivity|].
  intros H. apply orb_false_iff in H as [Hy Hl]. rewrite Hy. now rewrite IH.
Qed.

Lemma after_optional_there (optional : string) (files : list_ref) (s : store) :
  after_optional optional files s files = without_first optional (s files).
Proof.
  unfold after_optional, store_set.
  destruct (list_in optional (s files)) eqn:Hin.
  - now rewrite Nat.eqb_refl.
  - symmetry. now apply without_first_absent.
Qed.

(** Looking for one placeholder does not change whether a list holds the
    other one, also when the two lists are one object. *)
Lemma list_in_after_host (host_file r : list_ref) (s : store) :
  list_in downsampled_optional (after_optional host_optional host_file s r)
  = list_in downsampled_optional (s r).
Proof.
  destruct (Nat.eq_dec r host_file) as [->|Hr].
  - rewrite after_optional_there. apply list_in_without_first. discriminate.
  - now rewrite after_optional_elsewhere.
Qed.

Lemma In_sample_files (item_search list_name file : string)
    (lists : dict string (list string)) :
  In (list_name, file) (sample_files item_search lists) ->
  exists l, In (list_name, l) lists /\ first_match item_search l = Some file.
Proof.
  unfold sample_files. intros H.
  apply (proj1 (in_flat_map _ _ _)) in H as (item & Hitem & Hf).
  destruct item as [n l]. simpl in Hf.
  destruct (first_match item_search l) as [found|] eqn:Hfound; [|contradiction].
  destruct Hf as [[= <- <-]|[]]. eauto.
Qed.

Section FastcatProperties.

Context {sample : Type} (str : sample -> string)
        (sample_eqb : sample -> sample -> bool).
Hypothesis sample_eqb_eq : forall a b, sample_eqb a b = true <-> a = b.

Lemma foldM_add_sample (lists : dict string (list string))
    (f : sample -> dict string string) (names : list sample)
    (d : dict sample (dict string string)) :
  (forall name, foldM (add_item ("/" ++ str name ++ ".")) lists [] = Ok (f name)) ->
  foldM (add_sample sample str sample_eqb lists) names d
  = Ok (fold_left (fun d n => dict_set sample_eqb n (f n) d) names d).
Proof.
  intros Hf. revert d. induction names as [|n names IH]; intros d; simpl.
  - reflexivity.
  - unfold add_sample at 1. rewrite Hf. simpl. apply IH.
Qed.

Lemma foldM_add_sample_unique (lists : dict string (list string))
    (f : sample -> dict string string) (names : list sample) :
  (forall name, foldM (add_item ("/" ++ str name ++ ".")) lists [] = Ok (f name)) ->
  foldM (add_sample sample str sample_eqb lists) names []
  = Ok (map (fun n => (n, f n)) (unique sample_eqb names)).
Proof.
  intros Hf. rewrite (foldM_add_sample lists f names [] Hf).
  pose proof (fold_dict_set sample_eqb sample_eqb_eq f names []) as H.
  simpl in H. now rewrite H.
Qed.

(** The call raises nothing.  It returns one item for each distinct sample,
    in the order of their first appearance, with the first matches of the
    sample in the three lists, and leaves the store with the placeholders
    removed. *)
Lemma create_fastcat_dic_Ok (names : list sample)
    (raw host_file downsampled_file : list_ref) (s : store) :
  create_fastcat_dic sample str sample_eqb names raw host_file
                     downsampled_file s
  = Ok (map (fun n => (n, sample_files ("/" ++ str n ++ ".")
                            (fastcat_lists raw host_file downsampled_file s)))
            (unique sample_eqb names),
        fastcat_store host_file downsampled_file s).
Proof.
  unfold create_fastcat_dic. rewrite drop_optional_Ok. cbn [bind fst snd].
  rewrite drop_optional_Ok. cbn [bind fst snd].
  rewrite list_in_after_host.
  erewrite foldM_add_sample_unique; [|intros name; apply new_dic_Ok].
  cbn [bind]. f_equal. f_equal.
  apply map_ext. intros n. f_equal. f_equal.
  unfold fastcat_lists, fastcat_store.
  destruct (list_in host_optional (s host_file));
    destruct (list_in downsampled_optional (s downsampled_file));
    reflexivity.
Qed.

End FastcatProperties.

Section FastcatResults.

Context {sample : Type} (str : sample -> string)
        (sample_eqb : sample -> sample -> bool).
Hypothesis sample_eqb_eq : forall a b, sample_eqb a b = true <-> a = b.

(** X4.  [create_fastcat_dic] raises nothing, and for every sample of
    [sample_names] the dictionary it returns holds a dictionary in which
    [Raw], [Hostfilt] and [Downsampled] are the first file name of the list
    concerned that holds [/<sample>.], and are missing when the list has no
    such name; [Hostfilt] and [Downsampled] are also missing when the list
    held the placeholder of the optional file. *)
Theorem fastcat_entry (names : list sample)
    (raw host_file downsampled_file : list_ref) (s : store) (name : sample) :
  In name names ->
  exists d nd,
    create_fastcat_dic sample str sample_eqb names raw host_file
                       downsampled_file s
    = Ok (d, fastcat_store host_file downsampled_file s) /\
    dict_get sample_eqb name d = Some nd /\
    dict_get String.eqb "Raw" nd
    = first_match ("/" ++ str name ++ ".")
        (fastcat_store host_file downsampled_file s raw) /\
    dict_get String.eqb "Hostfilt" nd
    = (if list_in host_optional (s host_file) then None
       else first_match ("/" ++ str name ++ ".")
              (fastcat_store host_file downsampled_file s host_file)) /\
    dict_get String.eqb "Downsampled" nd
    = (if list_in downsampled_optional (s downsampled_file) then None
       else first_match ("/" ++ str name ++ ".")
              (fastcat_store host_file downsampled_file s downsampled_file)).
Proof.
  intros Hin. rewrite (create_fastcat_dic_Ok str sample_eqb sample_eqb_eq).
  eexists _, _. split; [reflexivity|]. split.
  - rewrite (dict_get_map sample_eqb sample_eqb_eq).
    assert (E : existsb (fun y => sample_eqb y name) (unique sample_eqb names)
                = true).
    { apply (existsb_eqb_In sample_eqb sample_eqb_eq).
      now apply (unique_In sample_eqb sample_eqb_eq). }
    rewrite E. reflexivity.
  - unfold sample_files, fastcat_lists. simpl.
    destruct (list_in host_optional (s host_file));
      destruct (list_in downsampled_optional (s downsampled_file)); simpl;
      repeat match goal with
             | |- context [first_match ?a ?b] => destruct (first_match a b)
             end; simpl; auto.
Qed.

(** X5.  The dictionary returned has one item for each distinct sample of
    [sample_names], in the order of their first appearance; a sample that is
    named twice has one item. *)
Theorem fastcat_keys (names : list sample)
    (raw host_file downsampled_file : list_ref) (s : store) :
  exists d s',
    create_fastcat_dic sample str sample_eqb names raw host_file
                       downsampled_file s = Ok (d, s') /\
    map fst d = unique sample_eqb names /\ NoDup (map fst d).
Proof.
  rewrite (create_fastcat_dic_Ok str sample_eqb sample_eqb_eq).
  eexists _, _. split; [reflexivity|].
  rewrite map_map. simpl. rewrite map_id.
  split; [reflexivity | apply (unique_NoDup sample_eqb sample_eqb_eq)].
Qed.

(** X6.  Every file name the dictionary holds for a sample holds the text
    [/<sample>.] and comes from the list its key names: [Raw] from the raw
    list, [Hostfilt] from a host list without placeholder, [Downsampled]
    from a downsampled list without placeholder. *)
Theorem fastcat_sound (names : list sample)
    (raw host_file downsampled_file : list_ref) (s : store)
    (d : dict sample (dict string string)) (s' : store)
    (name : sample) (nd : dict string string) (list_name file : string) :
  create_fastcat_dic sample str sample_eqb names raw host_file
                     downsampled_file s = Ok (d, s') ->
  In (name, nd) d -> In (list_name, file) nd ->
  Py.contains ("/" ++ str name ++ ".") file = true /\
  (list_name = "Raw" /\ In file (s' raw)
   \/ list_name = "Hostfilt" /\ In file (s' host_file) /\
      list_in host_optional (s host_file) = false
   \/ list_name = "Downsampled" /\ In file (s' downsampled_file) /\
      list_in downsampled_optional (s downsampled_file) = false).
Proof.
  rewrite (create_fastcat_dic_Ok str sample_eqb sample_eqb_eq).
  intros [= <- <-] Hnd Hfile.
  apply in_map_iff in Hnd as (n & Heq & _).
  assert (Hn : n = name) by exact (f_equal fst Heq).
  assert (Hd : sample_files ("/" ++ str n ++ ".")
                 (fastcat_lists raw host_file downsampled_file s) = nd)
    by exact (f_equal snd Heq).
  clear Heq. subst n nd.
  apply In_sample_files in Hfile as (l & Hitem & Hfound).
  unfold first_match in Hfound. apply find_some in Hfound as [Hin Hholds].
  split; [exact Hholds|].
  unfold fastcat_lists in Hitem. simpl in Hitem.
  destruct Hitem as [[= <- <-]|[[= <- <-]|[[= <- <-]|[]]]].
  - left. auto.
  - right. left.
    destruct (list_in host_optional (s host_file)); [contradiction | auto].
  - right. right.
    destruct (list_in downsampled_optional (s downsampled_file));
      [contradiction | auto].
Qed.

(** X7.  When the host list holds the placeholder of its optional file, no
    sample gets a [Hostfilt] item, whatever other file names the list
    holds; and likewise for the downsampled list and [Downsampled]. *)
Theorem fastcat_optional (names : list sample)
    (raw host_file downsampled_file : list_ref) (s : store) :
  exists d s',
    create_fastcat_dic sample str sample_eqb names raw host_file
                       downsampled_file s = Ok (d, s') /\
    (list_in host_optional (s host_file) = true ->
     forall name nd, In (name, nd) d -> dict_get String.eqb "Hostfilt" nd = None) /\
    (list_in downsampled_optional (s downsampled_file) = true ->
     forall name nd, In (name, nd) d ->
                     dict_get String.eqb "Downsampled" nd = None).
Proof.
  rewrite (create_fastcat_dic_Ok str sample_eqb sample_eqb_eq).
  eexists _, _. split; [reflexivity|].
  split; intros Hopt name nd Hnd;
    apply in_map_iff in Hnd as (n & [= -> <-] & _);
    unfold sample_files, fastcat_lists; simpl; rewrite Hopt; simpl;
    repeat match goal with
           | |- context [first_match ?a ?b] => destruct (first_match a b)
           end; simpl;
    try reflexivity;
    destruct (list_in _ _); simpl;
    repeat match goal with
           | |- context [first_match ?a ?b] => destruct (first_match a b)
           end; reflexivity.
Qed.

(** X8.  What the call does to the lists of its caller: the host list loses
    its first placeholder [host_filter_stats/OPTIONAL_FILE], the downsampled
    list its first [downsampled_stats/OPTIONAL_FILE], one list that is both
    loses the two, and every other list, the raw list among them, is left as
    it was. *)
Theorem fastcat_store_effect (names : list sample)
    (raw host_file downsampled_file : list_ref) (s : store) :
  exists d s',
    create_fastcat_dic sample str sample_eqb names raw host_file
                       downsampled_file s = Ok (d, s') /\
    (forall r, r <> host_file -> r <> downsampled_file -> s' r = s r) /\
    (host_file <> downsampled_file ->
     s' host_file = without_first host_optional (s host_file) /\
     s' downsampled_file
     = without_first downsampled_optional (s downsampled_file)) /\
    (host_file = downsampled_file ->
     s' host_file
     = without_first downsampled_optional
         (without_first host_optional (s host_file))).
Proof.
  rewrite (create_fastcat_dic_Ok str sample_eqb sample_eqb_eq).
  eexists _, _. split; [reflexivity|]. unfold fastcat_store.
  repeat split.
  - intros r Hh Hd. now rewrite !after_optional_elsewhere.
  - rewrite after_optional_elsewhere by assumption.
    apply after_optional_there.
  - rewrite after_optional_there.
    rewrite after_optional_elsewhere by auto. reflexivity.
  - intros <-. now rewrite !after_optional_there.
Qed.

End FastcatResults.

Lemma fastcat_entry_witness :
  exists d nd,
    create_fastcat_dic string (fun name => name) String.eqb
                       ["s1"; "s10"; "s3"; "s1"] 0%nat 1%nat 2%nat example_store
    = Ok (d, fastcat_store 1%nat 2%nat example_store) /\
    dict_get String.eqb "s1" d = Some nd /\
    dict_get String.eqb "Raw" nd
    = first_match ("/" ++ "s1" ++ ".") (fastcat_store 1%nat 2%nat example_store 0%nat) /\
    dict_get String.eqb "Hostfilt" nd
    = (if list_in host_optional (example_store 1%nat) then None
       else first_match ("/" ++ "s1" ++ ".")
              (fastcat_store 1%nat 2%nat example_store 1%nat)) /\
    dict_get String.eqb "Downsampled" nd
    = (if list_in downsampled_optional (example_store 2%nat) then None
       else first_match ("/" ++ "s1" ++ ".")
              (fastcat_store 1%nat 2%nat example_store 2%nat)).
Proof.
  apply (fastcat_entry (fun name => name) String.eqb String.eqb_eq
           ["s1"; "s10"; "s3"; "s1"] 0%nat 1%nat 2%nat example_store "s1").
  simpl. auto.
Defined.

Lemma fastcat_keys_witness :
  exists d s',
    create_fastcat_dic string (fun name => name) String.eqb
                       ["s1"; "s10"; "s3"; "s1"] 0%nat 1%nat 2%nat example_store
    = Ok (d, s') /\
    map fst d = unique String.eqb ["s1"; "s10"; "s3"; "s1"] /\
    NoDup (map fst d).
Proof.
  exact (fastcat_keys (fun name => name) String.eqb String.eqb_eq
           ["s1"; "s10"; "s3"; "s1"] 0%nat 1%nat 2%nat example_store).
Defined.

Lemma fastcat_sound_witness :
  Py.contains ("/" ++ "s1" ++ ".") "down/s1.stats" = true /\
  ("Downsampled" = "Raw" /\ In "down/s1.stats" (fastcat_store 1%nat 2%nat example_store 0%nat)
   \/ "Downsampled" = "Hostfilt" /\
      In "down/s1.stats" (fastcat_store 1%nat 2%nat example_store 1%nat) /\
      list_in host_optional (example_store 1%nat) = false
   \/ "Downsampled" = "Downsampled" /\
      In "down/s1.stats" (fastcat_store 1%nat 2%nat example_store 2%nat) /\
      list_in downsampled_optional (example_store 2%nat) = false).
Proof.
  apply (fastcat_sound (fun name => name) String.eqb String.eqb_eq
           ["s1"; "s10"] 0%nat 1%nat 2%nat example_store
           [("s1", [("Raw", "raw/s1.stats"); ("Downsampled", "down/s1.stats")]);
            ("s10", [("Raw", "raw/s10.stats");
                     ("Downsampled", "down/s10.stats")])]
           (fastcat_store 1%nat 2%nat example_store) "s1"
           [("Raw", "raw/s1.stats"); ("Downsampled", "down/s1.stats")]).
  - vm_compute. reflexivity.
  - simpl. auto.
  - simpl. auto.
Defined.

Lemma fastcat_optional_witness :
  exists d s',
    create_fastcat_dic string (fun name => name) String.eqb
                       ["s1"; "s10"] 0%nat 1%nat 2%nat example_store = Ok (d, s') /\
    (list_in host_optional (example_store 1%nat) = true ->
     forall name nd, In (name, nd) d -> dict_get String.eqb "Hostfilt" nd = None) /\
    (list_in downsampled_optional (example_store 2%nat) = true ->
     forall name nd, In (name, nd) d ->
                     dict_get String.eqb "Downsampled" nd = None).
Proof.
  exact (fastcat_optional (fun name => name) String.eqb String.eqb_eq
           ["s1"; "s10"] 0%nat 1%nat 2%nat example_store).
Defined.

Lemma fastcat_store_effect_witness :
  exists d s',
    create_fastcat_dic string (fun name => name) String.eqb
                       ["s1"; "s10"] 0%nat 1%nat 1%nat example_store = Ok (d, s') /\
    (forall r, r <> 1%nat -> r <> 1%nat -> s' r = example_store r) /\
    (1%nat <> 1%nat ->
     s' 1%nat = without_first host_optional (example_store 1%nat) /\
     s' 1%nat = without_first downsampled_optional (example_store 1%nat)) /\
    (1%nat = 1%nat ->
     s' 1%nat
     = without_first downsampled_optional
         (without_first host_optional (example_store 1%nat))).
Proof.
  exact (fastcat_store_effect (fun name => name) String.eqb String.eqb_eq
           ["s1"; "s10"] 0%nat 1%nat 1%nat example_store).
Defined.

(** ** More of [dotplot_assembly] *)

Lemma Forall2_In_r {A B : Type} (P : A -> B -> Prop) (l : list A) (m : list B)
    (y : B) :
  Forall2 P l m -> In y m -> exists x, In x l /\ P x y.
Proof.
  induction 1 as [|a b l m Hab _ IH]; simpl; [tauto|].
  intros [->|Hin]; [eauto|]. destruct (IH Hin) as (x & ? & ?). eauto.
Qed.

(** The rows of [df_all] have no [rend] column yet. *)
Lemma read_maf_no_rend (text : string) (rl : option Z) (df_all : list row)
    (b : row) :
  read_maf text = Ok (rl, df_all) -> In b df_all -> rend b = None.
Proof.
  intros H Hb. apply read_maf_Ok in H as (v & _ & Hdf & _).
  apply frame_rows in Hdf.
  destruct (Forall2_In_r _ _ _ _ Hdf Hb) as (rec & _ & Hrow).
  unfold row_of in Hrow. tauto.
Qed.

(** X13.  For every block of a file the build accepts whose query is on the
    forward strand, the segment drawn starts at the query start that was
    read and ends at that start plus the query length, computed in 64 bits
    (the exact sum when it fits); on a forward reference it runs from the
    reference start to that start plus the reference length, computed in 64
    bits and stored as a 64-bit float (the exact sum when it is at most
    [2 ^ 53] in magnitude); on a reference whose strand is neither [+] nor
    [-] it starts at the reference start and has no end. *)
Theorem forward_query_segments (text : string) (L : Z) (df_all : list row) :
  read_maf text = Ok (Some L, df_all) ->
  in_int64 L = true ->
  exists black red,
    dotplot_assembly text = Ok [black; red] /\
    line_color black = "black" /\
    Forall2 (fun b s =>
               y0 s = qstart b /\
               y1 s = Some (wrap64 (qstart b + qlen b)) /\
               (- 2 ^ 63 <= qstart b + qlen b < 2 ^ 63 ->
                y1 s = Some (qstart b + qlen b)) /\
               (rorient b = Some "+" ->
                x0 s = rstart b /\
                x1 s = Some (float64 (wrap64 (rstart b + rlen b))) /\
                (Z.abs (rstart b + rlen b) <= 2 ^ 53 ->
                 x1 s = Some (rstart b + rlen b))) /\
               (cell_eqb (rorient b) "+" = false ->
                cell_eqb (rorient b) "-" = false ->
                x0 s = rstart b /\ x1 s = None))
            (forward_blocks df_all) (segments black).
Proof.
  intros H HL. pose proof (dotplot_assembly_segments _ _ _ H HL) as Hplot.
  eexists _, _. split; [exact Hplot|]. split; [reflexivity|]. simpl.
  apply Forall2_map_r. intros b Hb.
  apply filter_In in Hb as [Hb _].
  pose proof (read_maf_no_rend _ _ _ _ H Hb) as Hrend.
  unfold forward_segment. simpl.
  split; [reflexivity|]. split; [reflexivity|]. split; [|split].
  - intros Hr. now rewrite wrap64_exact.
  - intros Hplus.
    assert (Hm : cell_eqb (rorient b) "-" = false) by (now rewrite Hplus).
    apply cell_eqb_eq in Hplus. rewrite Hm, Hplus.
    split; [reflexivity|]. split; [reflexivity|].
    intros Hr. change (2 ^ 53) with 9007199254740992 in Hr.
    rewrite wrap64_exact.
    + rewrite float64_exact; [reflexivity|].
      change (2 ^ 53) with 9007199254740992. exact Hr.
    + change (2 ^ 63) with 9223372036854775808. lia.
  - intros Hplus Hminus. now rewrite Hminus, Hplus.
Qed.

Lemma forward_query_segments_witness :
  exists black red,
    dotplot_assembly odd_strand_maf = Ok [black; red] /\
    line_color black = "black" /\
    Forall2 (fun b s =>
               y0 s = qstart b /\
               y1 s = Some (wrap64 (qstart b + qlen b)) /\
               (- 2 ^ 63 <= qstart b + qlen b < 2 ^ 63 ->
                y1 s = Some (qstart b + qlen b)) /\
               (rorient b = Some "+" ->
                x0 s = rstart b /\
                x1 s = Some (float64 (wrap64 (rstart b + rlen b))) /\
                (Z.abs (rstart b + rlen b) <= 2 ^ 53 ->
                 x1 s = Some (rstart b + rlen b))) /\
               (cell_eqb (rorient b) "+" = false ->
                cell_eqb (rorient b) "-" = false ->
                x0 s = rstart b /\ x1 s = None))
            (forward_blocks odd_strand_blocks) (segments black).
Proof.
  apply (forward_query_segments odd_strand_maf 1000 odd_strand_blocks).
  - vm_compute. reflexivity.
  - reflexivity.
Defined.

(** A [letters] comment whose integer is beyond 64 bits is read, and the
    second pass raises; so does the conversion of a start beyond 64 bits. *)
Example oversize_example :
  read_maf (unlines ["# letters=99999999999999999999"])
  = Ok (Some 99999999999999999999, []) /\
  dotplot_assembly (unlines ["# letters=99999999999999999999"])
  = Raise OverflowError /\
  read_maf (unlines ["# letters=1000";
                     "a score=10";
                     "s ref 9223372036854775808 5 + 100 ACGTA";
                     "s qry 20 5 + 1000 ACGTA";
                     ""])
  = Raise OverflowError.
Proof. repeat split; vm_compute; reflexivity. Qed.

(** X14.  The build returns a plot exactly when the parser and the
    conversion of the columns to integers of 64 bits accept the file and a
    [letters] comment was read whose integer, the last one read, fits in 64
    bits.  The plot then has two renderers, the black one with one segment
    for each block whose query strand is [+], the red one with one segment
    for each block whose query strand is [-], both in the order of the file;
    a block with any other query strand has no segment. *)
Theorem build_returns (text : string) (p : plot) :
  dotplot_assembly text = Ok p <->
  exists L df_all,
    read_maf text = Ok (Some L, df_all) /\
    in_int64 L = true /\
    p = [Glyph "black" (map forward_segment (forward_blocks df_all));
         Glyph "red" (map (reverse_segment L) (reverse_blocks df_all))].
Proof.
  split.
  - unfold dotplot_assembly, read_maf, finish.
    destruct (maf_loop (open text) entry) as [v|e]; [|discriminate].
    cbn [bind]. destruct (frame v) as [df_all|e]; [|discriminate].
    cbn [bind]. rewrite draw_rows.
    destruct (read_length v) as [L|]; [|discriminate].
    cbn [load bind]. destruct (in_int64 L) eqn:HL; [|discriminate].
    intros [= <-]. eauto.
  - intros (L & df_all & H & HL & ->). now apply dotplot_assembly_segments.
Qed.

Lemma reads_trans (maf maf1 maf2 : file) (v v1 v2 : locals) :
  reads maf v maf1 v1 -> reads maf1 v1 maf2 v2 -> reads maf v maf2 v2.
Proof.
  induction 1 as [|maf v mafa va maf1 v1 Hit _ IH]; [auto|].
  intros H. eapply reads_next; eauto.
Qed.

Lemma block_start_true (line : string) :
  block_start line = true ->
  Py.startswith line "#" = false /\ Py.startswith line "a" = true.
Proof.
  unfold block_start. intros H. apply andb_true_iff in H as [Hc Ha].
  apply negb_true_iff in Hc. auto.
Qed.

(** The loop on complete blocks: one record for each, in their order. *)
Lemma reads_blocks (blocks : list block_text) (rest : file) (v : locals) :
  forallb (fun b => block_start (a_line b)) blocks = true ->
  reads (flat_map block_lines blocks ++ rest)%list v rest
        (Locals (read_length v) (records v ++ map block_record blocks)%list).
Proof.
  revert v. induction blocks as [|b blocks IH]; intros v H; simpl.
  - rewrite app_nil_r. destruct v. apply reads_here.
  - simpl in H. apply andb_true_iff in H as [Hb Hblocks].
    apply block_start_true in Hb as [Hc Ha].
    eapply reads_next.
    + apply (iteration_block _ _ _ Hc Ha).
    + simpl. specialize (IH (Locals (read_length v)
                               (records v ++ [block_record b])%list) Hblocks).
      simpl in IH. rewrite <- app_assoc in IH. exact IH.
Qed.

(** X15.  When the loop comes to a line from which the file is made of
    complete blocks, each an [a] line, two sequence lines and a fourth line,
    and the file is accepted, the frame [df_all] has one row for each record
    read before and one for each of these blocks, in the order of the file,
    each made of the fields of the two sequence lines of its block. *)
Theorem complete_blocks_rows (text : string) (blocks : list block_text)
    (v : locals) (rl : option Z) (df_all : list row) :
  reads (open text) entry (flat_map block_lines blocks) v ->
  forallb (fun b => block_start (a_line b)) blocks = true ->
  read_maf text = Ok (rl, df_all) ->
  rl = read_length v /\
  Forall2 row_of (records v ++ map block_record blocks)%list df_all /\
  List.length df_all = (List.length (records v) + List.length blocks)%nat.
Proof.
  intros Hreads Hblocks Hread.
  pose proof (reads_blocks blocks [] v Hblocks) as Hrest.
  rewrite app_nil_r in Hrest.
  pose proof (reads_maf_loop _ _ _ _ (reads_trans _ _ _ _ _ _ Hreads Hrest))
    as Hloop.
  simpl in Hloop.
  apply read_maf_Ok in Hread as (w & Hw & Hdf & Hrl).
  rewrite Hloop in Hw. injection Hw as <-. simpl in *.
  apply frame_rows in Hdf. simpl in Hdf.
  split; [now subst|]. split; [exact Hdf|].
  apply Forall2_length in Hdf. rewrite <- Hdf, length_app, length_map.
  reflexivity.
Qed.

Lemma complete_blocks_rows_witness :
  Some 1000 = read_length (Locals (Some 1000) []) /\
  Forall2 row_of
          (records (Locals (Some 1000) []) ++ map block_record example_blocks)%list
          [Row (Some "ref") 10 5 (Some "+") (Some "qry") 20 5 (Some "+")
               None None;
           Row (Some "ref") 30 4 (Some "+") (Some "qry") 50 4 (Some "-")
               None None] /\
  List.length
    [Row (Some "ref") 10 5 (Some "+") (Some "qry") 20 5 (Some "+") None None;
     Row (Some "ref") 30 4 (Some "+") (Some "qry") 50 4 (Some "-") None None]
  = (List.length (records (Locals (Some 1000%Z) []))
     + List.length example_blocks)%nat.
Proof.
  apply (complete_blocks_rows example_maf example_blocks
           (Locals (Some 1000) [])).
  - eapply reads_next; [vm_compute; reflexivity | apply reads_here].
  - reflexivity.
  - vm_compute. reflexivity.
Defined.



(** X17.  A file that ends inside a block, after its [a] line or after its
    reference line, is refused: the build raises an exception, whatever the
    blocks before hold. *)
Theorem truncated_block_fails (text a : string) (rest : file) (v : locals) :
  reads (open text) entry (a :: rest) v ->
  block_start a = true ->
  (List.length rest <= 1)%nat ->
  exists e, dotplot_assembly text = Raise e.
Proof.
  intros Hreads Hstart Hlen.
  apply block_start_true in Hstart as [Hc Ha].
  rewrite (reads_dotplot_assembly _ _ _ Hreads).
  rewrite maf_loop_iteration, (iteration_block _ _ _ Hc Ha).
  assert (Hquery : fields (readline (advance rest)) = []).
  { destruct rest as [|l1 [|l2 rest]]; simpl in *; try reflexivity. lia. }
  rewrite Hquery, app_nil_r.
  destruct (maf_loop _ _) as [v2|e] eqn:Hloop; [|now exists e].
  apply maf_loop_records in Hloop as (more & Hrec). simpl in Hrec.
  unfold finish. simpl.
  destruct (frame v2) as [df_all|e] eqn:Hdf; [|now exists e]. exfalso.
  assert (Hin : In (fields (readline rest)) (records v2)).
  { rewrite Hrec. apply in_or_app. left. apply in_or_app. right. now left. }
  destruct (frame_is_int _ _ _ Hdf Hin) as (_ & _ & H5 & _).
  pose proof (fields_length (readline rest)) as Hfields.
  assert (Hnone : nth_error (fields (readline rest)) 5 = None)
    by (apply nth_error_None; lia).
  rewrite Hnone in H5. discriminate.
Qed.

Lemma truncated_block_fails_witness :
  exists e, dotplot_assembly truncated_maf = Raise e.
Proof.
  apply (truncated_block_fails truncated_maf ("a score=8" ++ LF)
           ["s ref 30 4 + 100 ACGT" ++ LF]%string
           (Locals (Some 1000)
                   [["ref"; "10"; "5"; "+"; "qry"; "20"; "5"; "+"]])).
  - do 2 (eapply reads_next; [vm_compute; reflexivity|]). apply reads_here.
  - reflexivity.
  - simpl. lia.
Defined.

(** ** Line ends *)

Lemma universal_newlines_no_cr (s : string) :
  no_cr s = true -> universal_newlines s = s.
Proof.
  induction s as [|c s IH]; simpl; [reflexivity|].
  intros H. apply andb_true_iff in H as [Hc Hs]. apply negb_true_iff in Hc.
  rewrite Hc. now rewrite IH.
Qed.

Lemma universal_newlines_crlf (s : string) :
  no_cr s = true -> universal_newlines (crlf s) = s.
Proof.
  induction s as [|c s IH]; simpl; [reflexivity|].
  intros H. apply andb_true_iff in H as [Hc Hs]. apply negb_true_iff in Hc.
  destruct (is_lf c) eqn:Hlf.
  - cbn [universal_newlines]. change (is_cr (ascii_of_nat 13)) with true.
    cbn iota. rewrite Hlf. cbn [universal_newlines]. rewrite Hc.
    now rewrite (IH Hs).
  - cbn [universal_newlines]. rewrite Hc. now rewrite (IH Hs).
Qed.

(** X18.  A file whose lines end in carriage return and line feed is built
    like the file whose lines end in a line feed. *)
Theorem crlf_accepted (text : string) :
  no_cr text = true ->
  dotplot_assembly (crlf text) = dotplot_assembly text.
Proof.
  intros H. unfold dotplot_assembly, open.
  now rewrite (universal_newlines_crlf _ H), (universal_newlines_no_cr _ H).
Qed.

Lemma crlf_accepted_witness :
  dotplot_assembly (crlf example_maf) = dotplot_assembly example_maf.
Proof. apply crlf_accepted. vm_compute. reflexivity. Defined.
